(** * Session scoping, role gates, organization selection and mail senders

    A shallow embedding of
    - [app/services/SessionService.server.ts] (class [Session]),
    - the choose-organization route ([loader], [action] and the form),
    - [app/services.server/mail.tsx],
    - the [action] of [routes/_app.reimbursements.$reimbursementId.tsx],
    followed by the properties of these functions.

    Conventions.  A JavaScript string is a [string] (a sequence of bytes,
    the UTF-8 encoding of its text).  [undefined]/[null] is [None].  An
    [async] function that reads or writes the database is a computation in
    the monad [M]: it threads the store and either returns a value or throws.
    A thrown value is kept as data, so that "throws a redirect" and "throws
    forbidden" are different results. *)

From Stdlib Require Import Ascii String NArith.
From stdpp Require Import base option list strings gmap fin_maps.

Open Scope string_scope.

(* ===================================================================== *)
(** * Data model (the Prisma entities the code reads and writes)         *)
(* ===================================================================== *)

Inductive UserRole := USER | ADMIN | SUPERADMIN.

#[global] Instance UserRole_eq_dec : EqDecision UserRole.
Proof. solve_decision. Defined.

(** [User], with the one field of its [contact] that the mail senders read. *)
Record User := mkUser {
  user_id : string;
  user_username : string;
  user_role : UserRole;
  user_contact_firstName : string;
}.

(** A row of [Membership]; its key [(userId, orgId)] is the key of the table
    (the compound unique selector [userId_orgId] of the code). *)
Record Membership := mkMembership {
  m_id : string;
  m_role : UserRole;
  m_isDefault : bool;
}.

Record Organization := mkOrganization {
  org_name : string;
  org_host : string;
  org_subdomain : option string;
  org_replyToEmail : string;
}.

(* ===================================================================== *)
(** * Responses and thrown values                                        *)
(* ===================================================================== *)

(** A session is a bag of key/value pairs. *)
Abbreviation Session := (gmap string string).

(** The value of a [Set-Cookie] header: what [sessionStorage.commitSession]
    and [sessionStorage.destroySession] produce for a session. *)
Inductive SetCookie :=
  | commitSession_cookie (session : Session)
  | destroySession_cookie (session : Session).

(** The responses the code builds.  [unauthorized] and [forbidden] are the
    two helpers of [~/lib/responses.server]; each carries the [{ user }]
    object it is called with. *)
Inductive Response :=
  | redirect (location : string) (set_cookie : option SetCookie)
  | unauthorized (user : option User)
  | forbidden (user : option User)
  | validationError (fields : list string).

(** What a [throw] (or a rejected promise) carries. *)
Inductive Thrown :=
  | ThrownResponse (r : Response)
  | NotFoundError            (* Prisma: findUniqueOrThrow / update on no row *)
  | TypeError_InvalidURL     (* new URL(...) on an input it cannot parse *)
  | Error (message : string) (* any other failure of a collaborator *).

Inductive Outcome (A : Type) :=
  | Return (a : A)
  | Throw (t : Thrown).
Arguments Return {A} a.
Arguments Throw {A} t.

(* ===================================================================== *)
(** * The store and the monad of request handlers                        *)
(* ===================================================================== *)

Record World := mkWorld {
  db_user : gmap string User;
  db_membership : gmap (string * string) Membership;
  db_organization : gmap string Organization;
  sentry_captured : list Thrown;
}.

Definition M (A : Type) : Type := World -> Outcome A * World.

#[global] Instance M_ret : MRet M := fun A a w => (Return a, w).

#[global] Instance M_bind : MBind M := fun A B f c w =>
  match c w with
  | (Return a, w') => f a w'
  | (Throw t, w') => (Throw t, w')
  end.

Definition throw {A} (t : Thrown) : M A := fun w => (Throw t, w).

Definition get_world : M World := fun w => (Return w, w).

Definition put_world (w' : World) : M unit := fun _ => (Return tt, w').

(** [try { c } catch (error) { h error }] *)
Definition try_catch {A} (c : M A) (h : Thrown -> M A) : M A := fun w =>
  match c w with
  | (Return a, w') => (Return a, w')
  | (Throw t, w') => h t w'
  end.

(** A collaborator's result, lifted into a handler. *)
Definition lift_outcome {A} (o : Outcome A) : M A := fun w => (o, w).

(* ===================================================================== *)
(** * Platform: requests, URLSearchParams                                *)
(* ===================================================================== *)

(** [new URL(request.url)]: the request's URL, parsed. *)
Record URL := mkURL {
  origin : string;
  pathname : string;
  search : string;
}.

(** The fields of the submitted form that the validator of the
    choose-organization route reads. *)
Record FormData := mkFormData {
  fd_orgId : option string;
  fd_redirectTo : option string;
  fd_rememberSelection : option string;
}.

(** A request: its URL, the session its [Cookie] header decodes to (when the
    header is present and its signature verifies), its form data. *)
Record Request := mkRequest {
  req_url : URL;
  req_cookie : option Session;
  req_formData : FormData;
}.

(** JavaScript truthiness of a string. *)
Definition truthy (s : string) : bool := negb (String.eqb s "").

Module URLSearchParams.

Definition hex_digit (n : N) : ascii :=
  match n with
  | 0 => "0" | 1 => "1" | 2 => "2" | 3 => "3" | 4 => "4" | 5 => "5"
  | 6 => "6" | 7 => "7" | 8 => "8" | 9 => "9" | 10 => "A" | 11 => "B"
  | 12 => "C" | 13 => "D" | 14 => "E" | _ => "F"
  end%N%char.

(** Bytes the application/x-www-form-urlencoded serializer leaves as they
    are: ASCII alphanumerics and [*], [-], [.], [_]. *)
Definition unreserved (c : ascii) : bool :=
  let n := N_of_ascii c in
  ((48 <=? n) && (n <=? 57) || (65 <=? n) && (n <=? 90)
   || (97 <=? n) && (n <=? 122)
   || (n =? 42) || (n =? 45) || (n =? 46) || (n =? 95))%N.

Definition encode_byte (c : ascii) : string :=
  if Ascii.eqb c " " then "+"
  else if unreserved c then String c ""
  else let n := N_of_ascii c in
       String "%" (String (hex_digit (n / 16)) (String (hex_digit (n mod 16)) "")).

Fixpoint encode (s : string) : string :=
  match s with
  | "" => ""
  | String c s' => encode_byte c +:+ encode s'
  end.

(** The bytes a serialized parameter can contain. *)
Definition safe_byte (c : ascii) : bool :=
  unreserved c || Ascii.eqb c "%" || Ascii.eqb c "+".

Fixpoint safe (s : string) : bool :=
  match s with
  | "" => true
  | String c s' => safe_byte c && safe s'
  end.

Fixpoint toString (params : list (string * string)) : string :=
  match params with
  | [] => ""
  | [(k, v)] => encode k +:+ "=" +:+ encode v
  | (k, v) :: rest => encode k +:+ "=" +:+ encode v +:+ "&" +:+ toString rest
  end.

End URLSearchParams.

(* ===================================================================== *)
(** * app/services/SessionService.server.ts                              *)
(* ===================================================================== *)

(** Modelled from the spec: [UserService.getUserById], whose module
    [~/services/UserService.server] is not among the files verified here, is
    the persistence layer's [findUser(id) -> User|null], a lookup by primary
    key.  The [include] option only selects related rows to load. *)
Definition UserService_getUserById (userId : string) : M (option User) :=
  w ← get_world; mret (db_user w !! userId).

Module SessionService.

Definition USER_SESSION_KEY : string := "userId".

(** [sessionStorage.getSession(cookie)]: an empty session when there is no
    (valid) cookie. *)
Definition getSession (request : Request) : Session :=
  default ∅ (req_cookie request).

Definition commitSession (session : Session) : SetCookie :=
  commitSession_cookie session.

Definition logout (request : Request) : Response :=
  let session := getSession request in
  redirect "/login" (Some (destroySession_cookie session)).

Definition getUserId (request : Request) : option string :=
  getSession request !! USER_SESSION_KEY.

Definition getUser (request : Request) : M (option User) :=
  match getUserId request with
  | None => mret None
  | Some userId =>
      user ← UserService_getUserById userId;
      match user with
      | Some u => mret (Some u)
      | None => throw (ThrownResponse (logout request))
      end
  end.

Definition getSessionUser (request : Request) : M (option User) :=
  match getUserId request with
  | None => mret None
  | Some userId =>
      user ← UserService_getUserById userId;
      match user with
      | Some u => mret (Some u)
      | None => throw (ThrownResponse (logout request))
      end
  end.

(** [redirectTo] defaults to [new URL(request.url).pathname]; [!userId]
    holds for [undefined] and for the empty string. *)
Definition requireUserId (request : Request) (redirectTo : option string)
  : M string :=
  let redirectTo := default (pathname (req_url request)) redirectTo in
  let searchParams := [("redirectTo", redirectTo)] in
  let to_login :=
    ThrownResponse
      (redirect ("/login?" +:+ URLSearchParams.toString searchParams) None) in
  match getUserId request with
  | Some userId => if truthy userId then mret userId else throw to_login
  | None => throw to_login
  end.

Definition includes (roles : list UserRole) (r : UserRole) : bool :=
  bool_decide (r ∈ roles).

(** The source tests [user &&] in each of its three [if]s and ends with
    [throw forbidden({ user })]; here the null user is the last case of the
    [match], which is where it falls through to. *)
Definition requireUserByRole (request : Request)
    (allowedRoles : option (list UserRole)) : M User :=
  let defaultAllowedRoles := [USER; ADMIN] in
  userId ← requireUserId request None;
  user ← UserService_getUserById userId;
  match user with
  | Some u =>
      (* if (user && user.role === UserRole.SUPERADMIN) *)
      if bool_decide (user_role u = SUPERADMIN) then mret u
      else
        match allowedRoles with
        | Some (r :: rs) =>
            (* if (user && allowedRoles && allowedRoles.length > 0) *)
            if includes (r :: rs) (user_role u) then mret u
            else throw (ThrownResponse (unauthorized (Some u)))
        | _ =>
            (* if (user && defaultAllowedRoles.includes(user.role)) *)
            if includes defaultAllowedRoles (user_role u) then mret u
            else throw (ThrownResponse (forbidden (Some u)))
        end
  | None => throw (ThrownResponse (forbidden None))
  end.

Definition requireUser (request : Request) : M User :=
  requireUserByRole request None.

Definition requireAdmin (request : Request) : M User :=
  requireUserByRole request (Some [ADMIN]).

Definition requireSuperAdmin (request : Request) : M User :=
  requireUserByRole request (Some [SUPERADMIN]).

(** [maxAge] of the cookie is not part of [SetCookie]; the session written
    is. *)
Definition createUserSession (request : Request) (userId : string)
    (remember : bool) (redirectTo : string) : Response :=
  let session := <[USER_SESSION_KEY := userId]> (getSession request) in
  redirect redirectTo (Some (commitSession_cookie session)).

End SessionService.

(* ===================================================================== *)
(** * Collaborators                                                      *)
(* ===================================================================== *)

Record Email := mkEmail {
  email_from : string;
  email_to : string;
  email_subject : string;
  email_html : string;
}.

(** What the functions below take from the platform and from modules of the
    application that are not among the files verified here.
    - [URL_href input base] is [new URL(input, base).toString()]; [None] when
      the constructor throws its [TypeError].
    - [CheckboxSchema raw] is the result of parsing a checkbox field with
      [CheckboxSchema] of [~/models/schemas]: [None] when the schema rejects
      the raw value, otherwise the truthiness of the parsed value.
    - [sendEmail] is [~/integrations/email.server]: the data of the provider's
      answer, or what it throws.
    - [render_WelcomeEmail firstName orgName url] renders the welcome mail.
    - [capitalize] is the helper of [~/lib/utils]. *)
Class Platform := {
  URL_href : string -> string -> option string;
  CheckboxSchema : option string -> option bool;
  sendEmail : Email -> Outcome string;
  render_WelcomeEmail : string -> string -> string -> string;
  capitalize : string -> string;
}.

Definition new_URL_href `{Platform} (input base : string) : M string :=
  match URL_href input base with
  | Some href => mret href
  | None => throw TypeError_InvalidURL
  end.

(** Modelled from the spec: the constant [ORGANIZATION_SESSION_KEY] of the
    session service the route imports is not among the files verified here;
    the spec names the session's active-organization key [organizationId]. *)
Definition ORGANIZATION_SESSION_KEY : string := "organizationId".

(* ===================================================================== *)
(** * The Prisma calls the code makes                                    *)
(* ===================================================================== *)

Definition set_isDefault (b : bool) (m : Membership) : Membership :=
  {| m_id := m_id m; m_role := m_role m; m_isDefault := b |}.

Definition set_db_membership (ms : gmap (string * string) Membership)
    (w : World) : World :=
  {| db_user := db_user w; db_membership := ms;
     db_organization := db_organization w;
     sentry_captured := sentry_captured w |}.

Module db.

(** [db.membership.findUniqueOrThrow({ where: { userId_orgId } })] *)
Definition membership_findUniqueOrThrow (userId orgId : string)
  : M Membership :=
  w ← get_world;
  match db_membership w !! (userId, orgId) with
  | Some m => mret m
  | None => throw NotFoundError
  end.

(** [db.membership.update({ data, where: { userId_orgId } })]: throws when
    the row does not exist. *)
Definition membership_update (userId orgId : string)
    (data : Membership -> Membership) : M Membership :=
  w ← get_world;
  match db_membership w !! (userId, orgId) with
  | Some m =>
      _ ← put_world
            (set_db_membership (<[(userId, orgId) := data m]> (db_membership w)) w);
      mret (data m)
  | None => throw NotFoundError
  end.

(** [db.membership.updateMany({ where: { userId }, data })] *)
Definition membership_updateMany (userId : string)
    (data : Membership -> Membership) : M unit :=
  w ← get_world;
  put_world
    (set_db_membership
       (map_imap (fun (k : string * string) m =>
                    Some (if bool_decide (k.1 = userId) then data m else m))
                 (db_membership w)) w).

(** [db.organization.findUniqueOrThrow({ where: { id } })] *)
Definition organization_findUniqueOrThrow (orgId : string)
  : M Organization :=
  w ← get_world;
  match db_organization w !! orgId with
  | Some org => mret org
  | None => throw NotFoundError
  end.

(** [db.user.findUniqueOrThrow({ where: { username } })]; [username] is
    unique. *)
Definition user_findUniqueOrThrow_username (username : string) : M User :=
  w ← get_world;
  match List.find (fun u => String.eqb (user_username u) username)
                  (map_to_list (db_user w)).*2 with
  | Some u => mret u
  | None => throw NotFoundError
  end.

End db.

(* ===================================================================== *)
(** * The choose-organization route                                      *)
(* ===================================================================== *)

Module ChooseOrg.

Record FormValues := mkFormValues {
  orgId : string;
  redirectTo : option string;
  rememberSelection : bool;
}.

(** [validator.validate(formData)] for the schema
    [{ orgId: z.string().min(1), redirectTo: z.string().optional(),
       rememberSelection: CheckboxSchema }].
    The error lists the rejected fields. *)
Definition validate `{Platform} (fd : FormData) : list string + FormValues :=
  let orgId :=
    match fd_orgId fd with
    | Some s => if (1 <=? String.length s)%nat then Some s else None
    | None => None
    end in
  match orgId, CheckboxSchema (fd_rememberSelection fd) with
  | Some o, Some r =>
      inr {| orgId := o; redirectTo := fd_redirectTo fd; rememberSelection := r |}
  | o, r =>
      inl (List.app (if o is None then ["orgId"] else [])
                    (if r is None then ["rememberSelection"] else []))
  end.

Definition action `{Platform} (request : Request) : M Response :=
  userId ← SessionService.requireUserId request None;
  match validate (req_formData request) with
  | inl error => mret (validationError error)
  | inr data =>
      let orgId := orgId data in
      (* Ensure the user is a member of the selected organization *)
      _ ← db.membership_findUniqueOrThrow userId orgId;
      (* Skip this screen on future logins *)
      _ ← (if rememberSelection data
           then _ ← db.membership_update userId orgId (set_isDefault true);
                mret tt
           else db.membership_updateMany userId (set_isDefault false));
      let session := SessionService.getSession request in
      let session := <[ORGANIZATION_SESSION_KEY := orgId]> session in
      redirectUrl ← new_URL_href (default "/" (redirectTo data))
                                 (origin (req_url request));
      mret (redirect redirectUrl
              (Some (SessionService.commitSession session)))
  end.

(** The hidden [redirectTo] field of the form the page renders, from the
    [redirectTo] search parameter of the page's URL
    ([searchParams.get("redirectTo") || "/"], then the test against
    ["/choose-org"]). *)
Definition LoginPage_redirectTo_field (searchParam : option string) : string :=
  let redirectTo :=
    match searchParam with
    | Some s => if truthy s then s else "/"
    | None => "/"
    end in
  if String.eqb redirectTo "/choose-org" then "/" else redirectTo.

End ChooseOrg.

(* ===================================================================== *)
(** * app/services.server/mail.tsx                                       *)
(* ===================================================================== *)

Module Mail.

(** The object a sender returns: [{ data }] or [{ error }]. *)
Inductive SendResult :=
  | result_data (data : string)
  | result_error (error : Thrown).

(** [Sentry.captureException(error)] *)
Definition Sentry_captureException (error : Thrown) : M unit := fun w =>
  (Return tt,
   {| db_user := db_user w; db_membership := db_membership w;
      db_organization := db_organization w;
      sentry_captured := sentry_captured w ++ [error] |}).

Definition nl : string := String "010"%char "".
Definition dq : string := String "034"%char "".

(** [`https://${org.subdomain ? org.subdomain + "." : ""}${org.host}`] *)
Definition org_base (org : Organization) : string :=
  "https://" +:+
  (match org_subdomain org with
   | Some sub => if truthy sub then sub +:+ "." else ""
   | None => ""
   end) +:+ org_host org.

(** [`${org.name} <${org.replyToEmail}@${org.host}>`] *)
Definition org_from (org : Organization) : string :=
  org_name org +:+ " <" +:+ org_replyToEmail org +:+ "@" +:+ org_host org +:+ ">".

Definition reset_html (org : Organization) (url : string) : string :=
  nl +:+ "        <p>Hi there,</p>" +:+
  nl +:+ "        <p>Someone requested a password reset for your " +:+ org_name org +:+
         " account. If this was you, please click the link below to reset your password. The link will expire in 15 minutes.</p>" +:+
  nl +:+ "        <p><a style=" +:+ dq +:+ "color:#976bff" +:+ dq +:+ " href=" +:+ dq +:+ url +:+ dq +:+
         " target=" +:+ dq +:+ "_blank" +:+ dq +:+ ">Reset Password</a></p>" +:+
  nl +:+ "        <p>If you did not request a password reset, you can safely ignore this email.</p>" +:+
  nl +:+ "        ".

Definition sendPasswordResetEmail `{Platform} (email token orgId : string)
  : M SendResult :=
  org ← db.organization_findUniqueOrThrow orgId;
  href ← new_URL_href "/passwords/new" (org_base org);
  (* url.searchParams.set("token", token); url.searchParams.set("isReset", "true") *)
  let url := href +:+ "?" +:+
             URLSearchParams.toString [("token", token); ("isReset", "true")] in
  try_catch
    (data ← lift_outcome (sendEmail
               {| email_from := org_from org;
                  email_to := email;
                  email_subject := "Reset Your Password";
                  email_html := reset_html org url |});
     mret (result_data data))
    (fun error =>
       _ ← Sentry_captureException error;
       mret (result_error error)).

Definition sendPasswordSetupEmail `{Platform} (email token orgId : string)
  : M SendResult :=
  org ← db.organization_findUniqueOrThrow orgId;
  user ← db.user_findUniqueOrThrow_username email;
  href ← new_URL_href "/passwords/new" (org_base org);
  let url := href +:+ "?" +:+ URLSearchParams.toString [("token", token)] in
  let html := render_WelcomeEmail (user_contact_firstName user) (org_name org) url in
  try_catch
    (data ← lift_outcome (sendEmail
               {| email_from := org_from org;
                  email_to := email;
                  email_subject := "Setup Your Password";
                  email_html := html |});
     mret (result_data data))
    (fun error =>
       _ ← Sentry_captureException error;
       mret (result_error error)).

Definition update_html `{Platform} (status : string) (note : option string)
  : string :=
  nl +:+ "          <p>Hi there,</p>" +:+
  nl +:+ "          <p>Your reimbursement request has been " +:+ capitalize status +:+ ".</p>" +:+
  nl +:+ "          " +:+
         (match note with
          | Some n => if truthy n then "<p>Administrator note: " +:+ n +:+ "</p>" else ""
          | None => ""
          end) +:+
  nl +:+ "        ".

Definition sendReimbursementRequestUpdateEmail `{Platform}
    (email status orgId : string) (note : option string) : M SendResult :=
  try_catch
    (org ← db.organization_findUniqueOrThrow orgId;
     data ← lift_outcome (sendEmail
               {| email_from := org_from org;
                  email_to := email;
                  email_subject := "Reimbursement Request " +:+ capitalize status;
                  email_html := update_html status note |});
     mret (result_data data))
    (fun error =>
       _ ← Sentry_captureException error;
       mret (result_error error)).

End Mail.

(* ===================================================================== *)
(** * A concrete platform and store, to run the functions on             *)
(* ===================================================================== *)

(** This instance resolves a path-absolute reference against an origin by
    concatenation, which is what [new URL] does for a path such as
    ["/choose-org"] or ["/passwords/new"]; every other input is taken as
    unparsable.  Its checkbox schema accepts an absent field and the value
    ["on"]; its mail provider is down. *)
Definition demoPlatform : Platform := {|
  URL_href := fun input base =>
    match input with
    | String "/" _ => Some (base +:+ input)
    | _ => None
    end;
  CheckboxSchema := fun raw =>
    match raw with
    | None => Some false
    | Some v => if String.eqb v "on" then Some true else None
    end;
  sendEmail := fun _ => Throw (Error "provider unavailable");
  render_WelcomeEmail := fun firstName orgName url =>
    "Welcome " +:+ firstName +:+ " to " +:+ orgName +:+ ": " +:+ url;
  capitalize := fun s => s;
|}.

(** User [U1] is a member of organization [A] (role [ADMIN], not the default)
    and of organization [B] (role [USER], the default). *)
Definition demoWorld : World := {|
  db_user := {[ "U1" := mkUser "U1" "u1@example.org" USER "Una";
                "S1" := mkUser "S1" "root@example.org" SUPERADMIN "Sam" ]};
  db_membership := {[ ("U1", "A") := mkMembership "m1" ADMIN false;
                      ("U1", "B") := mkMembership "m2" USER true ]};
  db_organization := {[ "A" := mkOrganization "Alpha" "example.org" None "no-reply" ]};
  sentry_captured := [];
|}.

Definition demoURL (path : string) : URL :=
  {| origin := "https://example.org"; pathname := path; search := "" |}.

Definition noForm : FormData :=
  {| fd_orgId := None; fd_redirectTo := None; fd_rememberSelection := None |}.

(** A request of the logged-in user [userId]. *)
Definition requestOf (userId path : string) (fd : FormData) : Request :=
  {| req_url := demoURL path;
     req_cookie := Some {[ "userId" := userId ]};
     req_formData := fd |}.

(** The form that selects organization [A]. *)
Definition selectA (redirectTo rememberSelection : option string) : FormData :=
  {| fd_orgId := Some "A"; fd_redirectTo := redirectTo;
     fd_rememberSelection := rememberSelection |}.

(** A request without a cookie. *)
Definition anonymousRequest (path : string) : Request :=
  {| req_url := demoURL path; req_cookie := None; req_formData := noForm |}.


(** Observations on an outcome. *)
Definition thrown_response {A} (o : Outcome A) : option Response :=
  match o with
  | Throw (ThrownResponse r) => Some r
  | _ => None
  end.

Definition is_forbidden {A} (o : Outcome A) : bool :=
  match thrown_response o with
  | Some (forbidden _) => true
  | _ => false
  end.

Definition response_location (r : Response) : option string :=
  match r with
  | redirect location _ => Some location
  | _ => None
  end.

Definition response_set_cookie (r : Response) : option SetCookie :=
  match r with
  | redirect _ set_cookie => set_cookie
  | _ => None
  end.

(** The [Set-Cookie] header of whatever response leaves the handler,
    returned or thrown. *)
Definition outcome_set_cookie (o : Outcome Response) : option SetCookie :=
  match o with
  | Return r => response_set_cookie r
  | Throw (ThrownResponse r) => response_set_cookie r
  | Throw _ => None
  end.

(** The store after the membership writes of [action], for a member whose
    selected row is [m]: the two branches of its [if (rememberSelection)]. *)
Definition after_selection (userId : string) (data : ChooseOrg.FormValues)
    (m : Membership) (w : World) : World :=
  if ChooseOrg.rememberSelection data
  then set_db_membership
         (<[(userId, ChooseOrg.orgId data) := set_isDefault true m]>
            (db_membership w)) w
  else set_db_membership
         (map_imap (fun (k : string * string) m' =>
                      Some (if bool_decide (k.1 = userId)
                            then set_isDefault false m' else m'))
                   (db_membership w)) w.

(** The [Location] of a returned redirect. *)
Definition outcome_location (o : Outcome Response) : option string :=
  match o with
  | Return r => response_location r
  | Throw _ => None
  end.

(* ===================================================================== *)
(** * Vocabulary for the statements about the session service            *)
(* ===================================================================== *)

(** The user a request resolves to: the stored user of the session's user
    id, when that id passes the [!userId] test of [requireUserId]. *)
Definition resolved_user (request : Request) (w : World) : option User :=
  match SessionService.getUserId request with
  | Some userId => if truthy userId then db_user w !! userId else None
  | None => None
  end.

(** The redirect [requireUserId] throws for a request to [path]. *)
Definition login_redirect (path : string) : Thrown :=
  ThrownResponse
    (redirect ("/login?redirectTo=" +:+ URLSearchParams.encode path) None).

(** The session a response commits, if it commits one. *)
Definition committed_session (r : Response) : option Session :=
  match response_set_cookie r with
  | Some (commitSession_cookie session) => Some session
  | _ => None
  end.

(* ===================================================================== *)
(** * The choose-organization route: loader and form                     *)
(* ===================================================================== *)

Module ChooseOrgPage.

(** An entry of the list the loader returns,
    [{ id: m.org.id, name: m.org.name, role: m.role, isDefault: m.isDefault }]. *)
Record OrgChoice := mkOrgChoice {
  oc_id : string;
  oc_name : string;
  oc_role : UserRole;
  oc_isDefault : bool;
}.

(** What the loader returns: [Toasts.redirectWithError(url, toast, init)]
    with the [Set-Cookie] header of [init], or [typedjson({ orgs })]. *)
Inductive LoaderResponse :=
  | redirectWithError (location title description : string)
      (set_cookie : option SetCookie)
  | typedjson_orgs (orgs : list OrgChoice).

(** The rows of [Membership] of a user, each with its organization id. *)
Definition memberships_of (userId : string) (w : World)
  : list (string * Membership) :=
  omap (fun km : string * string * Membership =>
          if bool_decide (km.1.1 = userId) then Some (km.1.2, km.2) else None)
       (map_to_list (db_membership w)).

(** [select: { org: { select: { id, name } }, role, isDefault }] on a row.
    The relation [org] is required: a row whose organization is missing
    gives no result. *)
Definition select_membership (w : World) (om : string * Membership)
  : option OrgChoice :=
  org ← db_organization w !! om.1;
  Some {| oc_id := om.1; oc_name := org_name org;
          oc_role := m_role om.2; oc_isDefault := m_isDefault om.2 |}.

(** [db.user.findUnique({ where: { id }, select: { id, memberships } })].
    Prisma rejects the query when a required relation is missing. *)
Definition user_findUnique_memberships (userId : string)
  : M (option (list OrgChoice)) :=
  w ← get_world;
  match db_user w !! userId with
  | None => mret None
  | Some _ =>
      match mapM (select_membership w) (memberships_of userId w) with
      | Some memberships => mret (Some memberships)
      | None => throw (Error "Inconsistent query result")
      end
  end.

Definition loader (request : Request) : M LoaderResponse :=
  userId ← SessionService.requireUserId request None;
  let session := SessionService.getSession request in
  user ← user_findUnique_memberships userId;
  match user with
  | None => throw (ThrownResponse (SessionService.logout request))
  | Some memberships =>
      match memberships with
      | [] =>
          mret (redirectWithError "/login" "Error"
                  "You are not a member of any organizations."
                  (Some (destroySession_cookie session)))
      | _ => mret (typedjson_orgs memberships)
      end
  end.

(** [defaultChecked={orgs.some((o) => o.isDefault)}] of the "Remember
    selection" checkbox. *)
Definition rememberSelection_defaultChecked (orgs : list OrgChoice) : bool :=
  existsb oc_isDefault orgs.

End ChooseOrgPage.

(** What [action] may do to a membership row: nothing to its id and role;
    its default flag changes only if [mine] holds. *)
Definition row_kept (mine : Prop) (m' m : Membership) : Prop :=
  m_id m' = m_id m /\ m_role m' = m_role m /\
  (m_isDefault m' ≠ m_isDefault m -> mine).

(** The response of [action] once the membership is found. *)
Definition selection_outcome `{Platform} (request : Request) (data : ChooseOrg.FormValues)
  : Outcome Response :=
  match URL_href (default "/" (ChooseOrg.redirectTo data))
                 (origin (req_url request)) with
  | Some href =>
      Return (redirect href
                (Some (commitSession_cookie
                         (<[ORGANIZATION_SESSION_KEY := ChooseOrg.orgId data]>
                            (SessionService.getSession request)))))
  | None => Throw TypeError_InvalidURL
  end.

(* ===================================================================== *)
(** * Vocabulary for the statements about the mail senders               *)
(* ===================================================================== *)

(** The exceptions a sender run reports to Sentry, read off its result:
    the returned [{ error }], nothing otherwise. *)
Definition reported (o : Outcome Mail.SendResult) : list Thrown :=
  match o with
  | Return (Mail.result_error error) => [error]
  | _ => []
  end.

(** The store with [errors] appended to what Sentry has captured. *)
Definition capture (errors : list Thrown) (w : World) : World :=
  {| db_user := db_user w; db_membership := db_membership w;
     db_organization := db_organization w;
     sentry_captured := sentry_captured w ++ errors |}.

(** The mail [sendPasswordResetEmail] hands to the provider. *)
Definition reset_mail (org : Organization) (email token href : string)
  : Email :=
  {| email_from := Mail.org_from org;
     email_to := email;
     email_subject := "Reset Your Password";
     email_html :=
       Mail.reset_html org
         (href +:+ "?token=" +:+ URLSearchParams.encode token +:+
          "&isReset=true") |}.

(** The mail [sendReimbursementRequestUpdateEmail] hands to the provider. *)
Definition update_mail `{Platform} (org : Organization)
    (email status : string) (note : option string) : Email :=
  {| email_from := Mail.org_from org;
     email_to := email;
     email_subject := "Reimbursement Request " +:+ capitalize status;
     email_html := Mail.update_html status note |}.

(** No stored user has this username. *)
Definition no_user_named (w : World) (username : string) : Prop :=
  forall id u, db_user w !! id = Some u -> user_username u ≠ username.

(* ===================================================================== *)
(** * routes/_app.reimbursements.$reimbursementId.tsx: the action        *)
(* ===================================================================== *)

Module Reimbursement.

(** The values of [ReimbursementRequestStatus] the route names. *)
Inductive ReimbursementRequestStatus := PENDING | APPROVED | REJECTED | VOID.

#[global] Instance ReimbursementRequestStatus_eq_dec :
  EqDecision ReimbursementRequestStatus.
Proof. solve_decision. Defined.

(** The fields of the entities the action reads and writes.  Amounts are
    integers of cents. *)
Record ReimbursementRequest := mkReimbursementRequest {
  rr_status : ReimbursementRequestStatus;
  rr_accountId : string;
  rr_amountInCents : Z;
}.

Record Account := mkAccount {
  account_code : string;
}.

Record TransactionItem := mkTransactionItem {
  ti_amountInCents : Z;
  ti_methodId : Z;
  ti_typeId : Z;
}.

Record Transaction := mkTransaction {
  tx_accountId : string;
  tx_amountInCents : Z;
  tx_description : option string;
  tx_date : Z;
  tx_transactionItems : list TransactionItem;
}.

(** The tables of the route, beside those of [World]; [transaction] in
    order of creation. *)
Record Ledger := mkLedger {
  db_reimbursementRequest : gmap string ReimbursementRequest;
  db_account : gmap string Account;
  db_transaction : list Transaction;
}.

(** [_action]: a status, or the literal ["REOPEN"]. *)
Inductive Action :=
  | SetStatus (status : ReimbursementRequestStatus)
  | REOPEN.

(** [result.data] of the validator. *)
Record FormValues := mkFormValues {
  id : string;
  accountId : option string;
  note : option string;
  _action : Action;
}.

(** What the route takes from modules that are not among the files verified
    here, and from the clock.
    - [validate request] is [validator.validate(await request.formData())]
      for the schema of the route: the field errors, or the parsed data.
    - [now] is [new Date()], in milliseconds.
    - the three constants are [TransactionItemMethod.Other],
      [TransactionItemType.Other_Incoming] and
      [TransactionItemType.Other_Outgoing] of [~/lib/constants]. *)
Class Collaborators := {
  validate : Request -> list (string * string) + FormValues;
  now : Z;
  TransactionItemMethod_Other : Z;
  TransactionItemType_Other_Incoming : Z;
  TransactionItemType_Other_Outgoing : Z;
}.

(** What the action returns: [validationError(...)] with its field errors,
    or [toast.json(request, { reimbursementRequest }, { title, description })]. *)
Inductive ActionResponse :=
  | validationError (fieldErrors : list (string * string))
  | toast_json (reimbursementRequest : ReimbursementRequest)
      (title description : string).

(** The handlers of the route run on the store of [M] and the ledger. *)
Definition B (A : Type) : Type := World * Ledger -> Outcome A * (World * Ledger).

#[global] Instance B_ret : MRet B := fun A a s => (Return a, s).

#[global] Instance B_bind : MBind B := fun A C f c s =>
  match c s with
  | (Return a, s') => f a s'
  | (Throw t, s') => (Throw t, s')
  end.

Definition B_throw {A} (t : Thrown) : B A := fun s => (Throw t, s).

Definition get_ledger : B Ledger := fun s => (Return s.2, s).

Definition put_ledger (l : Ledger) : B unit := fun s => (Return tt, (s.1, l)).

(** A handler of the session service, run on the first component. *)
Definition liftM {A} (c : M A) : B A := fun s =>
  match c s.1 with
  | (o, w') => (o, (w', s.2))
  end.

Definition set_status (status : ReimbursementRequestStatus)
    (r : ReimbursementRequest) : ReimbursementRequest :=
  {| rr_status := status; rr_accountId := rr_accountId r;
     rr_amountInCents := rr_amountInCents r |}.

(** [prisma.reimbursementRequest.update({ where: { id }, data: { status } })]:
    throws when the row does not exist, returns the updated row. *)
Definition reimbursementRequest_update (id : string)
    (status : ReimbursementRequestStatus) : B ReimbursementRequest :=
  l ← get_ledger;
  match db_reimbursementRequest l !! id with
  | Some r =>
      _ ← put_ledger
            {| db_reimbursementRequest :=
                 <[id := set_status status r]> (db_reimbursementRequest l);
               db_account := db_account l;
               db_transaction := db_transaction l |};
      mret (set_status status r)
  | None => B_throw NotFoundError
  end.

(** The relation [account] of a request, loaded by [include: { account: true }];
    the relation is required. *)
Definition include_account (r : ReimbursementRequest) : B Account :=
  l ← get_ledger;
  match db_account l !! rr_accountId r with
  | Some a => mret a
  | None => B_throw (Error "Inconsistent query result")
  end.

(** [prisma.$transaction([create, create])]: both rows or none.  The first
    create names its account by the scalar [accountId] (a foreign key), the
    second by [account: { connect: { id } }]. *)
Definition transaction_create_both (incoming outgoing : Transaction)
  : B unit :=
  l ← get_ledger;
  match db_account l !! tx_accountId incoming with
  | None => B_throw (Error "Foreign key constraint failed")
  | Some _ =>
      match db_account l !! tx_accountId outgoing with
      | None => B_throw NotFoundError
      | Some _ =>
          put_ledger
            {| db_reimbursementRequest := db_reimbursementRequest l;
               db_account := db_account l;
               db_transaction := db_transaction l ++ [incoming; outgoing] |}
      end
  end.

Definition action `{Collaborators} (request : Request) : B ActionResponse :=
  _ ← liftM (SessionService.requireAdmin request);
  match validate request with
  | inl error => mret (validationError error)
  | inr data =>
      match _action data with
      | REOPEN =>
          (* Reopen *)
          reimbursementRequest ← reimbursementRequest_update (id data) PENDING;
          mret (toast_json reimbursementRequest
                  "Reimbursement Request reopened" "")
      | SetStatus APPROVED =>
          (* Approved *)
          match accountId data with
          | Some accountId =>
              if truthy accountId then
                reimbursementRequest ←
                  reimbursementRequest_update (id data) APPROVED;
                account ← include_account reimbursementRequest;
                let total := rr_amountInCents reimbursementRequest in
                _ ← transaction_create_both
                      (* Incoming transaction *)
                      {| tx_accountId := rr_accountId reimbursementRequest;
                         tx_amountInCents := total;
                         tx_description := note data;
                         tx_date := now;
                         tx_transactionItems :=
                           [ {| ti_amountInCents := total;
                                ti_methodId := TransactionItemMethod_Other;
                                ti_typeId := TransactionItemType_Other_Incoming |} ] |}
                      (* Outgoing transaction *)
                      {| tx_accountId := accountId;
                         tx_amountInCents := -1 * total;
                         tx_description :=
                           Some ("Reimbursement to account " +:+
                                 account_code account);
                         tx_date := now;
                         tx_transactionItems :=
                           [ {| ti_amountInCents := -1 * total;
                                ti_methodId := TransactionItemMethod_Other;
                                ti_typeId := TransactionItemType_Other_Outgoing |} ] |};
                mret (toast_json reimbursementRequest
                        "Reimbursement Request Approved"
                        "The reimbursement request has been approved and transactions have been created.")
              else
                mret (validationError
                        [("accountId", "Account is required for approvals.")])
          | None =>
              mret (validationError
                      [("accountId", "Account is required for approvals.")])
          end
      | SetStatus status =>
          (* Rejected or Voided *)
          reimbursementRequest ← reimbursementRequest_update (id data) status;
          let normalizedAction :=
            if bool_decide (status = REJECTED) then "Rejected" else "Voided" in
          mret (toast_json reimbursementRequest
                  ("Reimbursement Request " +:+ normalizedAction)
                  ("The reimbursement request has been " +:+ normalizedAction +:+
                   " and the requester will be notified."))
      end
  end.

End Reimbursement.

(** The sum of the amounts of all transactions of a ledger. *)
Definition ledger_balance (l : Reimbursement.Ledger) : Z :=
  foldr Z.add 0%Z (Reimbursement.tx_amountInCents <$> Reimbursement.db_transaction l).


(** A request row after the action, against the row before: the same
    account and amount. *)
Definition request_kept (r' r : Reimbursement.ReimbursementRequest) : Prop :=
  Reimbursement.rr_accountId r' = Reimbursement.rr_accountId r /\
  Reimbursement.rr_amountInCents r' = Reimbursement.rr_amountInCents r.

(** The status a valid form asks for. *)
Definition requested_status (a : Reimbursement.Action)
  : Reimbursement.ReimbursementRequestStatus :=
  match a with
  | Reimbursement.REOPEN => Reimbursement.PENDING
  | Reimbursement.SetStatus status => status
  end.

(** A ledger with the status of one request replaced. *)
Definition with_status (id : string)
    (status : Reimbursement.ReimbursementRequestStatus)
    (r : Reimbursement.ReimbursementRequest) (l : Reimbursement.Ledger)
  : Reimbursement.Ledger :=
  {| Reimbursement.db_reimbursementRequest :=
       <[id := Reimbursement.set_status status r]>
         (Reimbursement.db_reimbursementRequest l);
     Reimbursement.db_account := Reimbursement.db_account l;
     Reimbursement.db_transaction := Reimbursement.db_transaction l |}.

(* ===================================================================== *)
(** * More concrete data                                                 *)
(* ===================================================================== *)

(** [demoWorld] with both organizations of [U1] stored. *)
Definition demoWorld2 : World := {|
  db_user := db_user demoWorld;
  db_membership := db_membership demoWorld;
  db_organization :=
    {[ "A" := mkOrganization "Alpha" "example.org" None "no-reply";
       "B" := mkOrganization "Beta" "example.org" (Some "beta") "no-reply" ]};
  sentry_captured := [];
|}.

(** [demoWorld] without any membership. *)
Definition demoWorld0 : World := set_db_membership ∅ demoWorld.

(** Collaborators whose validator accepts the form and parses it to
    [data]. *)
Definition demoCollaborators (data : Reimbursement.FormValues)
  : Reimbursement.Collaborators := {|
  Reimbursement.validate := fun _ => inr data;
  Reimbursement.now := 1730548800000;
  Reimbursement.TransactionItemMethod_Other := 7;
  Reimbursement.TransactionItemType_Other_Incoming := 8;
  Reimbursement.TransactionItemType_Other_Outgoing := 9;
|}.

(** A pending request of 25.00 on account [acc1]; a second account
    [acc2]; no transaction yet. *)
Definition demoLedger : Reimbursement.Ledger := {|
  Reimbursement.db_reimbursementRequest :=
    {[ "r1" := Reimbursement.mkReimbursementRequest Reimbursement.PENDING
                 "acc1" 2500 ]};
  Reimbursement.db_account :=
    {[ "acc1" := Reimbursement.mkAccount "1001";
       "acc2" := Reimbursement.mkAccount "2002" ]};
  Reimbursement.db_transaction := [];
|}.

Definition reimbursementForm (id : string) (accountId : option string)
    (a : Reimbursement.Action) : Reimbursement.FormValues :=
  {| Reimbursement.id := id; Reimbursement.accountId := accountId;
     Reimbursement.note := Some "Paid"; Reimbursement._action := a |}.

(** The spec's [InvalidOrgSelection], in its words: the selection form is
    presented again with a field-level error, that is, the handler returns
    a validation error on the [orgId] field. *)
Definition is_InvalidOrgSelection (o : Outcome Response) : bool :=
  match o with
  | Return (validationError fields) => bool_decide ("orgId" ∈ fields)
  | _ => false
  end.

(* ===================================================================== *)
(** * Running a handler                                                  *)
(* ===================================================================== *)

Ltac run_M :=
  unfold mbind, mret, M_bind, M_ret, throw, get_world, put_world,
    lift_outcome, try_catch; simpl.

Lemma requireUserId_ok (request : Request) (redirectTo : option string)
    (w : World) (userId : string) :
  SessionService.getUserId request = Some userId ->
  truthy userId = true ->
  SessionService.requireUserId request redirectTo w = (Return userId, w).
Proof.
  intros Hid Ht. unfold SessionService.requireUserId.
  rewrite Hid, Ht. reflexivity.
Qed.

Lemma bind_requireUserId_ok {B} (request : Request) (w : World)
    (userId : string) (k : string -> M B) :
  SessionService.getUserId request = Some userId ->
  truthy userId = true ->
  (SessionService.requireUserId request None ≫= k) w = k userId w.
Proof.
  intros Hid Ht. unfold mbind, M_bind.
  rewrite (requireUserId_ok _ _ _ _ Hid Ht). reflexivity.
Qed.

(* ===================================================================== *)
(** * Role gate                                                          *)
(* ===================================================================== *)

Section RoleGate.

Variables (request : Request) (w : World) (userId : string).
Hypothesis Hid : SessionService.getUserId request = Some userId.
Hypothesis Htruthy : truthy userId = true.

(** C4.  When the user the request resolves to has role [SUPERADMIN],
    [requireUserByRole] returns that user whatever [allowedRoles] is:
    absent, empty, or a set without [SUPERADMIN] such as [[ADMIN]]. *)
Theorem requireUserByRole_superadmin (u : User)
    (allowedRoles : option (list UserRole)) :
  db_user w !! userId = Some u ->
  user_role u = SUPERADMIN ->
  SessionService.requireUserByRole request allowedRoles w = (Return u, w).
Proof using Hid Htruthy.
  intros Hu Hrole. unfold SessionService.requireUserByRole.
  rewrite (bind_requireUserId_ok _ _ _ _ Hid Htruthy).
  unfold UserService_getUserById. run_M. rewrite Hu, Hrole. reflexivity.
Qed.

(** C2, as the code has it.  When the resolved user's role is not
    [SUPERADMIN] and [allowedRoles] is given, non-empty and does not
    contain that role, [requireUserByRole] throws the [unauthorized]
    response carrying the user (and not [forbidden]); the store is left
    as it was. *)
Theorem requireUserByRole_role_not_allowed (u : User)
    (allowedRoles : list UserRole) :
  db_user w !! userId = Some u ->
  user_role u ≠ SUPERADMIN ->
  allowedRoles ≠ [] ->
  user_role u ∉ allowedRoles ->
  SessionService.requireUserByRole request (Some allowedRoles) w
    = (Throw (ThrownResponse (unauthorized (Some u))), w).
Proof using Hid Htruthy.
  intros Hu Hrole Hne Hnotin. unfold SessionService.requireUserByRole.
  rewrite (bind_requireUserId_ok _ _ _ _ Hid Htruthy).
  unfold UserService_getUserById. run_M. rewrite Hu.
  rewrite bool_decide_eq_false_2 by exact Hrole.
  destruct allowedRoles as [|r rs]; [congruence|].
  unfold SessionService.includes.
  rewrite bool_decide_eq_false_2 by exact Hnotin. reflexivity.
Qed.

(** C10, as the code has it.  When the session's user id is not empty and
    resolves to no stored user, [requireUserByRole] (hence [requireUser],
    [requireAdmin] and [requireSuperAdmin]) throws [forbidden] with a null
    user and leaves the store as it was; the response is not the redirect
    to [/login] with the session-destroying cookie that [getUser] throws
    for the same request. *)
Theorem requireUserByRole_dangling_user :
  db_user w !! userId = None ->
  (forall allowedRoles,
      SessionService.requireUserByRole request allowedRoles w
        = (Throw (ThrownResponse (forbidden None)), w)) /\
  SessionService.requireUser request w
    = (Throw (ThrownResponse (forbidden None)), w) /\
  SessionService.requireAdmin request w
    = (Throw (ThrownResponse (forbidden None)), w) /\
  SessionService.requireSuperAdmin request w
    = (Throw (ThrownResponse (forbidden None)), w) /\
  SessionService.getUser request w
    = (Throw (ThrownResponse (SessionService.logout request)), w) /\
  forbidden None ≠ SessionService.logout request.
Proof using Hid Htruthy.
  intros Hu.
  assert (Hall : forall allowedRoles,
      SessionService.requireUserByRole request allowedRoles w
        = (Throw (ThrownResponse (forbidden None)), w)).
  { intros allowedRoles. unfold SessionService.requireUserByRole.
    rewrite (bind_requireUserId_ok _ _ _ _ Hid Htruthy).
    unfold UserService_getUserById. run_M. rewrite Hu. reflexivity. }
  repeat split; try apply Hall.
  - unfold SessionService.getUser. rewrite Hid.
    unfold UserService_getUserById. run_M. rewrite Hu. reflexivity.
  - discriminate.
Qed.

End RoleGate.

(* ===================================================================== *)
(** * URLSearchParams                                                    *)
(* ===================================================================== *)

Lemma hex_digit_safe (n : N) :
  URLSearchParams.safe_byte (URLSearchParams.hex_digit n) = true.
Proof.
  destruct n as [|p]; [reflexivity|].
  do 4 (try destruct p as [p|p|]; try reflexivity).
Qed.

Lemma safe_append (a b : string) :
  URLSearchParams.safe a = true -> URLSearchParams.safe b = true ->
  URLSearchParams.safe (a +:+ b) = true.
Proof.
  intros Ha Hb. induction a as [|c a IH]; simpl in *; [exact Hb|].
  apply andb_true_iff in Ha as [Hc Ha].
  rewrite Hc, (IH Ha). reflexivity.
Qed.

(** The serializer's output is made of unreserved bytes, [%] and [+] only:
    a [/] of a path never appears as such in the query string. *)
Lemma encode_safe (s : string) :
  URLSearchParams.safe (URLSearchParams.encode s) = true.
Proof.
  induction s as [|c s IH]; simpl; [reflexivity|].
  apply safe_append; [|exact IH].
  unfold URLSearchParams.encode_byte.
  destruct (Ascii.eqb c " "); [reflexivity|].
  destruct (URLSearchParams.unreserved c) eqn:Hc.
  - simpl. unfold URLSearchParams.safe_byte. rewrite Hc. reflexivity.
  - simpl. rewrite !hex_digit_safe. reflexivity.
Qed.

(* ===================================================================== *)
(** * Identity resolver                                                  *)
(* ===================================================================== *)

(** C7.  [getUser] returns [null] when the session carries no user id.
    When the session carries a user id that resolves to no stored user, it
    throws the redirect to [/login] whose [Set-Cookie] header destroys the
    request's session; in particular it does not return [null] then. *)
Theorem getUser_absent_or_dangling (request : Request) (w : World) :
  (SessionService.getUserId request = None ->
   SessionService.getUser request w = (Return None, w)) /\
  (forall userId,
      SessionService.getUserId request = Some userId ->
      db_user w !! userId = None ->
      SessionService.getUser request w
        = (Throw (ThrownResponse
             (redirect "/login"
                (Some (destroySession_cookie (SessionService.getSession request))))),
           w) /\
      fst (SessionService.getUser request w) ≠ Return None).
Proof.
  split.
  - intros Hid. unfold SessionService.getUser. rewrite Hid. reflexivity.
  - intros userId Hid Hu.
    assert (Hrun : SessionService.getUser request w
        = (Throw (ThrownResponse (SessionService.logout request)), w)).
    { unfold SessionService.getUser. rewrite Hid.
      unfold UserService_getUserById. run_M. rewrite Hu. reflexivity. }
    split; [exact Hrun | rewrite Hrun; discriminate].
Qed.

(** C8.  When the session carries no user id, [requireUserId] throws a
    redirect to [/login?redirectTo=...] whose parameter is the URL-encoded
    [redirectTo] argument, the request's pathname when the argument is
    omitted; the response sets no cookie. *)
Theorem requireUserId_unauthenticated (request : Request)
    (redirectTo : option string) (w : World) :
  SessionService.getUserId request = None ->
  SessionService.requireUserId request redirectTo w
    = (Throw (ThrownResponse
         (redirect
            ("/login?redirectTo=" +:+
             URLSearchParams.encode
               (default (pathname (req_url request)) redirectTo))
            None)),
       w).
Proof.
  intros Hid. unfold SessionService.requireUserId. rewrite Hid. reflexivity.
Qed.

(* ===================================================================== *)
(** * Organization selection                                             *)
(* ===================================================================== *)

Section Selection.

Context `{Platform}.
Variables (request : Request) (w : World) (userId : string).
Hypothesis Hid : SessionService.getUserId request = Some userId.
Hypothesis Htruthy : truthy userId = true.

Lemma action_member (data : ChooseOrg.FormValues) (m : Membership) :
  ChooseOrg.validate (req_formData request) = inr data ->
  db_membership w !! (userId, ChooseOrg.orgId data) = Some m ->
  ChooseOrg.action request w =
    (match URL_href (default "/" (ChooseOrg.redirectTo data))
                    (origin (req_url request)) with
     | Some href =>
         Return (redirect href
                   (Some (commitSession_cookie
                            (<[ORGANIZATION_SESSION_KEY := ChooseOrg.orgId data]>
                               (SessionService.getSession request)))))
     | None => Throw TypeError_InvalidURL
     end,
     after_selection userId data m w).
Proof using Hid Htruthy.
  intros Hv Hm. unfold ChooseOrg.action.
  rewrite (bind_requireUserId_ok _ _ _ _ Hid Htruthy). rewrite Hv.
  unfold db.membership_findUniqueOrThrow, db.membership_update,
    db.membership_updateMany, new_URL_href, after_selection.
  run_M. rewrite Hm. simpl.
  destruct (ChooseOrg.rememberSelection data); simpl.
  - rewrite Hm. simpl.
    destruct (URL_href _ _); reflexivity.
  - destruct (URL_href _ _); reflexivity.
Qed.

(** C5, as the code has it.  When the submitted organization id is not one
    of the logged-in user's memberships, [action] leaves the store as it
    was (no [isDefault] changes) and the response that leaves it, returned
    or thrown, sets no cookie (no session is written or committed).  A form
    the validator accepts fails at the membership lookup, which throws its
    not-found error at the caller (the form is not answered with a field
    error); a form the validator rejects is answered with the validation
    error. *)
Theorem action_non_member (o : string) :
  fd_orgId (req_formData request) = Some o ->
  db_membership w !! (userId, o) = None ->
  snd (ChooseOrg.action request w) = w /\
  outcome_set_cookie (fst (ChooseOrg.action request w)) = None /\
  (forall data, ChooseOrg.validate (req_formData request) = inr data ->
                fst (ChooseOrg.action request w) = Throw NotFoundError) /\
  (forall fields, ChooseOrg.validate (req_formData request) = inl fields ->
                  fst (ChooseOrg.action request w)
                    = Return (validationError fields)).
Proof using Hid Htruthy.
  intros Ho Hnone. unfold ChooseOrg.action.
  rewrite (bind_requireUserId_ok _ _ _ _ Hid Htruthy).
  destruct (ChooseOrg.validate (req_formData request)) as [fields|data] eqn:Hv.
  - run_M. repeat split; try reflexivity.
    + intros data Hd; discriminate.
    + intros fields' Hf. injection Hf as ->. reflexivity.
  - assert (Ho' : ChooseOrg.orgId data = o).
    { unfold ChooseOrg.validate in Hv. rewrite Ho in Hv.
      destruct (1 <=? String.length o)%nat;
        destruct (CheckboxSchema _); inversion Hv; reflexivity. }
    unfold db.membership_findUniqueOrThrow. run_M.
    rewrite Ho', Hnone. simpl. repeat split; try reflexivity.
    intros fields Hf; discriminate.
Qed.

(** C6.  After [action] runs for a member with the selection not
    remembered, no membership of that user has [isDefault = true]. *)
Theorem action_forget_clears_defaults (data : ChooseOrg.FormValues) :
  ChooseOrg.validate (req_formData request) = inr data ->
  ChooseOrg.rememberSelection data = false ->
  is_Some (db_membership w !! (userId, ChooseOrg.orgId data)) ->
  forall org m,
    db_membership (snd (ChooseOrg.action request w)) !! (userId, org) = Some m ->
    m_isDefault m = false.
Proof using Hid Htruthy.
  intros Hv Hr [m0 Hm0] org m.
  rewrite (action_member data m0 Hv Hm0). simpl.
  unfold after_selection. rewrite Hr. simpl.
  rewrite map_lookup_imap.
  destruct (db_membership w !! (userId, org)) as [m1|]; simpl; [|discriminate].
  rewrite bool_decide_eq_true_2 by reflexivity.
  intros [= <-]. reflexivity.
Qed.

(** X23.  What the remembered selection writes: the selected membership
    becomes the default, every other membership is left as it was. *)
Lemma action_remember_writes (data : ChooseOrg.FormValues) (m0 : Membership) :
  ChooseOrg.validate (req_formData request) = inr data ->
  ChooseOrg.rememberSelection data = true ->
  db_membership w !! (userId, ChooseOrg.orgId data) = Some m0 ->
  db_membership (snd (ChooseOrg.action request w))
    !! (userId, ChooseOrg.orgId data) = Some (set_isDefault true m0) /\
  forall k, k ≠ (userId, ChooseOrg.orgId data) ->
    db_membership (snd (ChooseOrg.action request w)) !! k = db_membership w !! k.
Proof using Hid Htruthy.
  intros Hv Hr Hm0. rewrite (action_member data m0 Hv Hm0). simpl.
  unfold after_selection. rewrite Hr. simpl. split.
  - apply lookup_insert_eq.
  - intros k Hk. apply lookup_insert_ne. congruence.
Qed.

(** C3, as the code has it.  For a valid submission by a member, [action]
    redirects to [new URL(redirectTo ?? "/", origin)] (the submitted
    target resolved against the request's origin, the root when no target
    is submitted) and commits the session with the organization written
    into it.  The target is not compared with ["/choose-org"] there; it is
    the form that never offers ["/choose-org"]: its hidden [redirectTo]
    field is ["/"] when the page's search parameter is absent, empty or
    ["/choose-org"], and the search parameter otherwise. *)
Theorem action_redirects_to_submitted_target
    (data : ChooseOrg.FormValues) (href : string) :
  ChooseOrg.validate (req_formData request) = inr data ->
  is_Some (db_membership w !! (userId, ChooseOrg.orgId data)) ->
  URL_href (default "/" (ChooseOrg.redirectTo data))
           (origin (req_url request)) = Some href ->
  fst (ChooseOrg.action request w)
    = Return (redirect href
        (Some (commitSession_cookie
                 (<[ORGANIZATION_SESSION_KEY := ChooseOrg.orgId data]>
                    (SessionService.getSession request))))) /\
  (forall searchParam,
      ChooseOrg.LoginPage_redirectTo_field searchParam ≠ "/choose-org") /\
  ChooseOrg.LoginPage_redirectTo_field None = "/" /\
  ChooseOrg.LoginPage_redirectTo_field (Some "") = "/" /\
  ChooseOrg.LoginPage_redirectTo_field (Some "/choose-org") = "/" /\
  (forall s, s ≠ "" -> s ≠ "/choose-org" ->
             ChooseOrg.LoginPage_redirectTo_field (Some s) = s).
Proof using Hid Htruthy.
  intros Hv [m0 Hm0] Hhref. rewrite (action_member data m0 Hv Hm0). simpl.
  rewrite Hhref. split; [reflexivity|].
  assert (Hfield : forall r : string,
             (if String.eqb r "/choose-org" then "/" else r) ≠ "/choose-org").
  { intros r. destruct (String.eqb r "/choose-org") eqn:E; [discriminate|].
    apply String.eqb_neq in E. exact E. }
  split; [|repeat split].
  - intros searchParam. unfold ChooseOrg.LoginPage_redirectTo_field. apply Hfield.
  - intros s Hs Hc. unfold ChooseOrg.LoginPage_redirectTo_field, truthy.
    apply String.eqb_neq in Hs. rewrite Hs. simpl.
    apply String.eqb_neq in Hc. rewrite Hc. reflexivity.
Qed.

End Selection.

(* ===================================================================== *)
(** * Mail senders                                                       *)
(* ===================================================================== *)

Section MailSenders.

Context `{Platform}.

(** The reimbursement sender never throws: its lookup and its send are both
    inside the [try]. *)
Lemma sendReimbursementRequestUpdateEmail_returns
    (email status orgId : string) (note : option string) (w : World) :
  exists r w',
    Mail.sendReimbursementRequestUpdateEmail email status orgId note w
      = (Return r, w').
Proof.
  unfold Mail.sendReimbursementRequestUpdateEmail,
    db.organization_findUniqueOrThrow, Mail.Sentry_captureException.
  run_M. destruct (db_organization w !! orgId); simpl.
  - destruct (sendEmail _); simpl; eauto.
  - eauto.
Qed.

(** A failure of the provider is captured by the password-reset sender and
    returned as [{ error }]. *)
Lemma sendPasswordResetEmail_provider_failure
    (email token orgId href : string) (org : Organization) (w : World)
    (error : Thrown) :
  db_organization w !! orgId = Some org ->
  URL_href "/passwords/new" (Mail.org_base org) = Some href ->
  (forall mail, sendEmail mail = Throw error) ->
  Mail.sendPasswordResetEmail email token orgId w
    = (Return (Mail.result_error error),
       {| db_user := db_user w; db_membership := db_membership w;
          db_organization := db_organization w;
          sentry_captured := sentry_captured w ++ [error] |}).
Proof.
  intros Horg Hhref Hsend.
  unfold Mail.sendPasswordResetEmail, db.organization_findUniqueOrThrow,
    new_URL_href, Mail.Sentry_captureException.
  run_M. rewrite Horg. simpl. rewrite Hhref. simpl. rewrite Hsend.
  reflexivity.
Qed.

(** The organization lookup of the password senders is before their [try]:
    its failure reaches the caller, and nothing is captured. *)
Lemma password_senders_lookup_failure (email token orgId : string) (w : World) :
  db_organization w !! orgId = None ->
  Mail.sendPasswordResetEmail email token orgId w = (Throw NotFoundError, w) /\
  Mail.sendPasswordSetupEmail email token orgId w = (Throw NotFoundError, w).
Proof.
  intros Horg.
  unfold Mail.sendPasswordResetEmail, Mail.sendPasswordSetupEmail,
    db.organization_findUniqueOrThrow.
  run_M. rewrite Horg. split; reflexivity.
Qed.

End MailSenders.

(** C9.  The claim fails on the two password senders.  With no organization
    ["Z"] in the store, [sendPasswordResetEmail] and
    [sendPasswordSetupEmail] throw the lookup's not-found error at the
    caller and capture nothing, while [sendReimbursementRequestUpdateEmail]
    on the same store captures the same error and returns it as
    [{ error }]. *)
Theorem password_senders_throw_at_caller :
  db_organization demoWorld !! "Z" = None /\
  @Mail.sendPasswordResetEmail demoPlatform "u1@example.org" "token" "Z" demoWorld
    = (Throw NotFoundError, demoWorld) /\
  @Mail.sendPasswordSetupEmail demoPlatform "u1@example.org" "token" "Z" demoWorld
    = (Throw NotFoundError, demoWorld) /\
  fst (@Mail.sendReimbursementRequestUpdateEmail demoPlatform
         "u1@example.org" "APPROVED" "Z" None demoWorld)
    = Return (Mail.result_error NotFoundError) /\
  sentry_captured
    (snd (@Mail.sendReimbursementRequestUpdateEmail demoPlatform
            "u1@example.org" "APPROVED" "Z" None demoWorld))
    = [NotFoundError].
Proof.
  assert (Hz : db_organization demoWorld !! "Z" = None) by reflexivity.
  pose proof (@password_senders_lookup_failure demoPlatform
                "u1@example.org" "token" "Z" demoWorld Hz) as [Hreset Hsetup].
  repeat split; try assumption; reflexivity.
Qed.

(* ===================================================================== *)
(** * Concrete runs                                                      *)
(* ===================================================================== *)

(** C1.  The claim fails on the code.  User [U1] has memberships [A] (not
    the default) and [B] (the default) and selects [A] with the selection
    remembered: the action succeeds, and afterwards both [A] and [B] have
    [isDefault = true].  The remembered branch sets the selected row and
    clears no other one. *)
Theorem action_remember_keeps_previous_default :
  let request := requestOf "U1" "/choose-org" (selectA None (Some "on")) in
  m_isDefault <$> (db_membership demoWorld !! ("U1", "A")) = Some false /\
  m_isDefault <$> (db_membership demoWorld !! ("U1", "B")) = Some true /\
  outcome_location (fst (@ChooseOrg.action demoPlatform request demoWorld))
    = Some "https://example.org/" /\
  m_isDefault <$>
    (db_membership (snd (@ChooseOrg.action demoPlatform request demoWorld))
       !! ("U1", "A")) = Some true /\
  m_isDefault <$>
    (db_membership (snd (@ChooseOrg.action demoPlatform request demoWorld))
       !! ("U1", "B")) = Some true.
Proof.
  cbv zeta. repeat split; reflexivity.
Qed.

(** C2: a plain user calling [requireAdmin] is answered [unauthorized], not
    [forbidden]. *)
Lemma requireAdmin_plain_user_not_forbidden :
  let request := requestOf "U1" "/reimbursements/7" noForm in
  user_role <$> (db_user demoWorld !! "U1") = Some USER /\
  (USER ∉ [ADMIN]) /\
  fst (SessionService.requireAdmin request demoWorld)
    = Throw (ThrownResponse
        (unauthorized (Some (mkUser "U1" "u1@example.org" USER "Una")))) /\
  is_forbidden (fst (SessionService.requireAdmin request demoWorld)) = false.
Proof.
  cbv zeta. repeat split; try reflexivity.
  intros Hin. apply list_elem_of_singleton in Hin. discriminate.
Qed.

Lemma requireUserByRole_role_not_allowed_witness :
  SessionService.requireUserByRole
    (requestOf "U1" "/reimbursements/7" noForm) (Some [ADMIN]) demoWorld
  = (Throw (ThrownResponse
       (unauthorized (Some (mkUser "U1" "u1@example.org" USER "Una")))),
     demoWorld).
Proof.
  apply (requireUserByRole_role_not_allowed
           (requestOf "U1" "/reimbursements/7" noForm) demoWorld "U1").
  - reflexivity.
  - reflexivity.
  - reflexivity.
  - simpl. discriminate.
  - discriminate.
  - intros Hin. apply list_elem_of_singleton in Hin. discriminate.
Defined.

Lemma requireUserByRole_superadmin_witness :
  user_role <$> (db_user demoWorld !! "S1") = Some SUPERADMIN /\
  SessionService.requireUserByRole
    (requestOf "S1" "/reimbursements/7" noForm) (Some [ADMIN]) demoWorld
  = (Return (mkUser "S1" "root@example.org" SUPERADMIN "Sam"), demoWorld).
Proof.
  split; [reflexivity|].
  apply (requireUserByRole_superadmin
           (requestOf "S1" "/reimbursements/7" noForm) demoWorld "S1");
    reflexivity.
Defined.

Lemma requireUserByRole_dangling_user_witness :
  db_user demoWorld !! "gone" = None /\
  SessionService.requireAdmin (requestOf "gone" "/reimbursements/7" noForm)
    demoWorld
  = (Throw (ThrownResponse (forbidden None)), demoWorld).
Proof.
  split; [reflexivity|].
  apply (requireUserByRole_dangling_user
           (requestOf "gone" "/reimbursements/7" noForm) demoWorld "gone");
    reflexivity.
Defined.

Lemma getUser_absent_or_dangling_witness :
  SessionService.getUser (anonymousRequest "/") demoWorld
    = (Return None, demoWorld) /\
  SessionService.getUser (requestOf "gone" "/" noForm) demoWorld
    = (Throw (ThrownResponse
         (redirect "/login"
            (Some (destroySession_cookie {[ "userId" := "gone" ]})))),
       demoWorld).
Proof.
  split.
  - apply (getUser_absent_or_dangling (anonymousRequest "/") demoWorld).
    reflexivity.
  - apply (getUser_absent_or_dangling (requestOf "gone" "/" noForm) demoWorld)
      with (userId := "gone"); reflexivity.
Defined.

Lemma requireUserId_unauthenticated_witness :
  SessionService.getUserId (anonymousRequest "/accounts/42") = None /\
  SessionService.requireUserId (anonymousRequest "/accounts/42") None demoWorld
    = (Throw (ThrownResponse
         (redirect "/login?redirectTo=%2Faccounts%2F42" None)),
       demoWorld).
Proof.
  split; [reflexivity|].
  apply (requireUserId_unauthenticated (anonymousRequest "/accounts/42")
           None demoWorld).
  reflexivity.
Defined.

Lemma action_non_member_witness :
  db_membership demoWorld !! ("U1", "Z") = None /\
  @ChooseOrg.action demoPlatform
    (requestOf "U1" "/choose-org"
       {| fd_orgId := Some "Z"; fd_redirectTo := Some "/accounts";
          fd_rememberSelection := Some "on" |})
    demoWorld
  = (Throw NotFoundError, demoWorld).
Proof.
  split; [reflexivity|].
  destruct (@action_non_member demoPlatform
    (requestOf "U1" "/choose-org"
       {| fd_orgId := Some "Z"; fd_redirectTo := Some "/accounts";
          fd_rememberSelection := Some "on" |})
    demoWorld "U1" eq_refl eq_refl "Z" eq_refl eq_refl)
    as (Hworld & _ & Hthrow & _).
  specialize (Hthrow (ChooseOrg.mkFormValues "Z" (Some "/accounts") true) eq_refl).
  rewrite (surjective_pairing (ChooseOrg.action _ _)).
  rewrite Hworld, Hthrow. reflexivity.
Defined.

Lemma action_forget_clears_defaults_witness :
  m_isDefault <$> (db_membership demoWorld !! ("U1", "B")) = Some true /\
  m_isDefault <$>
    (db_membership
       (snd (@ChooseOrg.action demoPlatform
               (requestOf "U1" "/choose-org" (selectA None None)) demoWorld))
       !! ("U1", "B")) = Some false.
Proof.
  split; [reflexivity|].
  destruct (db_membership
       (snd (@ChooseOrg.action demoPlatform
               (requestOf "U1" "/choose-org" (selectA None None)) demoWorld))
       !! ("U1", "B")) as [m|] eqn:Hm.
  - simpl. f_equal.
    apply (@action_forget_clears_defaults demoPlatform
             (requestOf "U1" "/choose-org" (selectA None None)) demoWorld "U1"
             eq_refl eq_refl (ChooseOrg.mkFormValues "A" None false)
             eq_refl eq_refl (ex_intro _ (mkMembership "m1" ADMIN false) eq_refl)
             "B" m Hm).
  - vm_compute in Hm. discriminate Hm.
Defined.

(** C3: a valid submission whose [redirectTo] is ["/choose-org"] is
    redirected to the selection screen, not to the root. *)
Lemma action_choose_org_target_kept :
  let request :=
    requestOf "U1" "/choose-org" (selectA (Some "/choose-org") None) in
  @ChooseOrg.validate demoPlatform (req_formData request)
    = inr (ChooseOrg.mkFormValues "A" (Some "/choose-org") false) /\
  is_Some (db_membership demoWorld !! ("U1", "A")) /\
  outcome_location (fst (@ChooseOrg.action demoPlatform request demoWorld))
    = Some "https://example.org/choose-org" /\
  outcome_location (fst (@ChooseOrg.action demoPlatform request demoWorld))
    ≠ Some "https://example.org/".
Proof.
  cbv zeta. split; [reflexivity|]. split; [eexists; reflexivity|].
  split; [reflexivity|]. vm_compute. discriminate.
Qed.

Lemma action_redirects_to_submitted_target_witness :
  fst (@ChooseOrg.action demoPlatform
         (requestOf "U1" "/choose-org" (selectA (Some "/accounts/42") None))
         demoWorld)
  = Return (redirect "https://example.org/accounts/42"
      (Some (commitSession_cookie
               {[ "userId" := "U1"; "organizationId" := "A" ]}))).
Proof.
  destruct (@action_redirects_to_submitted_target demoPlatform
    (requestOf "U1" "/choose-org" (selectA (Some "/accounts/42") None))
    demoWorld "U1" eq_refl eq_refl
    (ChooseOrg.mkFormValues "A" (Some "/accounts/42") false)
    "https://example.org/accounts/42"
    eq_refl (ex_intro _ (mkMembership "m1" ADMIN false) eq_refl) eq_refl)
    as [Hrun _].
  rewrite Hrun. reflexivity.
Defined.

(* ===================================================================== *)
(** * The role gate, in full                                             *)
(* ===================================================================== *)

Lemma resolved_user_Some (request : Request) (w : World) (u : User) :
  resolved_user request w = Some u <->
  exists userId,
    SessionService.getUserId request = Some userId /\
    truthy userId = true /\ db_user w !! userId = Some u.
Proof.
  unfold resolved_user. split.
  - destruct (SessionService.getUserId request) as [userId|]; [|discriminate].
    destruct (truthy userId) eqn:Ht; [|discriminate]. eauto.
  - intros (userId & -> & -> & Hu). exact Hu.
Qed.

(** Every run of the gate, by cases on what the request resolves to. *)
Lemma requireUserByRole_run (request : Request)
    (allowedRoles : option (list UserRole)) (w : World) :
  SessionService.requireUserByRole request allowedRoles w =
    match SessionService.getUserId request with
    | Some userId =>
        if truthy userId then
          match db_user w !! userId with
          | Some u =>
              if bool_decide (user_role u = SUPERADMIN) then (Return u, w)
              else match allowedRoles with
                   | Some (r :: rs) =>
                       if bool_decide (user_role u ∈ r :: rs) then (Return u, w)
                       else (Throw (ThrownResponse (unauthorized (Some u))), w)
                   | _ => (Return u, w)
                   end
          | None => (Throw (ThrownResponse (forbidden None)), w)
          end
        else (Throw (login_redirect (pathname (req_url request))), w)
    | None => (Throw (login_redirect (pathname (req_url request))), w)
    end.
Proof.
  unfold SessionService.requireUserByRole, SessionService.requireUserId,
    UserService_getUserById, SessionService.includes.
  run_M.
  destruct (SessionService.getUserId request) as [userId|]; [|reflexivity].
  destruct (truthy userId); [|reflexivity]. simpl.
  destruct (db_user w !! userId) as [u|]; [|reflexivity].
  destruct (user_role u) eqn:Hr; simpl; try reflexivity;
    destruct allowedRoles as [[|r rs]|]; try reflexivity;
    case_bool_decide; reflexivity.
Qed.

Lemma gate_returns_iff (request : Request)
    (allowedRoles : option (list UserRole)) (w : World) (u : User) :
  fst (SessionService.requireUserByRole request allowedRoles w) = Return u <->
  resolved_user request w = Some u /\
  (user_role u = SUPERADMIN \/
   match allowedRoles with
   | Some (r :: rs) => user_role u ∈ r :: rs
   | _ => True
   end).
Proof.
  rewrite requireUserByRole_run. unfold resolved_user.
  destruct (SessionService.getUserId request) as [userId|];
    [|simpl; split; [discriminate|intros [[=] _]]].
  destruct (truthy userId); [|simpl; split; [discriminate|intros [[=] _]]].
  destruct (db_user w !! userId) as [u'|];
    [|simpl; split; [discriminate|intros [[=] _]]].
  case_bool_decide as Hsa.
  { simpl. split.
    - intros [= ->]. auto.
    - intros [[= ->] _]. reflexivity. }
  destruct allowedRoles as [[|r rs]|].
  - simpl. split; [intros [= ->]; auto | intros [[= ->] _]; reflexivity].
  - case_bool_decide as Hin; simpl.
    + split; [intros [= ->]; auto | intros [[= ->] _]; reflexivity].
    + split; [discriminate|]. intros [[= ->] [Hs|Hi]]; contradiction.
  - simpl. split; [intros [= ->]; auto | intros [[= ->] _]; reflexivity].
Qed.

(** X1.  [requireUserByRole] returns a user exactly when the request
    resolves to that stored user and either the user's role is
    [SUPERADMIN], or no role list (or an empty one) is given, or the role
    is in the given list. *)
Theorem requireUserByRole_returns_iff (request : Request)
    (allowedRoles : option (list UserRole)) (w : World) (u : User) :
  fst (SessionService.requireUserByRole request allowedRoles w) = Return u <->
  resolved_user request w = Some u /\
  (user_role u = SUPERADMIN \/
   match allowedRoles with
   | Some (r :: rs) => user_role u ∈ r :: rs
   | _ => True
   end).
Proof. apply gate_returns_iff. Qed.

Lemma gate_reads_only (request : Request)
    (allowedRoles : option (list UserRole)) (w : World) :
  snd (SessionService.requireUserByRole request allowedRoles w) = w.
Proof.
  rewrite requireUserByRole_run.
  destruct (SessionService.getUserId request) as [userId|]; [|reflexivity].
  destruct (truthy userId); [|reflexivity].
  destruct (db_user w !! userId) as [u|]; [|reflexivity].
  case_bool_decide; [reflexivity|].
  destruct allowedRoles as [[|r rs]|]; try reflexivity.
  case_bool_decide; reflexivity.
Qed.

(** X2.  The three public gates: [requireUser] returns every resolved
    user, [requireAdmin] returns exactly the resolved users whose role is
    [ADMIN] or [SUPERADMIN], [requireSuperAdmin] exactly those whose role
    is [SUPERADMIN]. *)
Theorem public_gates_return_iff (request : Request) (w : World) (u : User) :
  (fst (SessionService.requireUser request w) = Return u <->
   resolved_user request w = Some u) /\
  (fst (SessionService.requireAdmin request w) = Return u <->
   resolved_user request w = Some u /\
   (user_role u = ADMIN \/ user_role u = SUPERADMIN)) /\
  (fst (SessionService.requireSuperAdmin request w) = Return u <->
   resolved_user request w = Some u /\ user_role u = SUPERADMIN).
Proof.
  unfold SessionService.requireUser, SessionService.requireAdmin,
    SessionService.requireSuperAdmin.
  rewrite !gate_returns_iff. split; [|split].
  - tauto.
  - split.
    + intros [Hres [Hs|Hin]]; split; auto.
      apply list_elem_of_singleton in Hin. auto.
    + intros [Hres [Ha|Hs]]; split; auto.
      right. apply list_elem_of_singleton. exact Ha.
  - split.
    + intros [Hres [Hs|Hin]]; split; auto.
      apply list_elem_of_singleton in Hin. exact Hin.
    + intros [Hres Hs]. auto.
Qed.

(** X3.  The gate throws [forbidden] only for a request whose (non-empty)
    session user id has no stored user: the [forbidden] response never
    carries a user, for any role list. *)
Theorem requireUserByRole_forbidden_only_without_user (request : Request)
    (allowedRoles : option (list UserRole)) (w : World) (user : option User) :
  fst (SessionService.requireUserByRole request allowedRoles w)
    = Throw (ThrownResponse (forbidden user)) ->
  user = None /\
  exists userId,
    SessionService.getUserId request = Some userId /\
    truthy userId = true /\ db_user w !! userId = None.
Proof.
  rewrite requireUserByRole_run.
  destruct (SessionService.getUserId request) as [userId|]; [|discriminate].
  destruct (truthy userId) eqn:Ht; [|discriminate].
  destruct (db_user w !! userId) as [u|] eqn:Hu.
  - case_bool_decide; [discriminate|].
    destruct allowedRoles as [[|r rs]|]; try discriminate.
    case_bool_decide; discriminate.
  - simpl. intros [= <-]. eauto.
Qed.

(** X4.  Widening a non-empty role list never turns a pass into a
    failure. *)
Theorem requireUserByRole_monotone (request : Request) (w : World) (u : User)
    (roles roles' : list UserRole) :
  roles ≠ [] -> roles ⊆ roles' ->
  fst (SessionService.requireUserByRole request (Some roles) w) = Return u ->
  fst (SessionService.requireUserByRole request (Some roles') w) = Return u.
Proof.
  intros Hne Hsub. rewrite !gate_returns_iff.
  intros [Hres [Hs|Hin]]; split; auto.
  destruct roles as [|r rs]; [congruence|].
  destruct roles' as [|r' rs']; [auto|]. right. apply Hsub, Hin.
Qed.

(** X5.  The session service only reads: whatever they return or throw,
    [requireUserId], [getUser], [getSessionUser] and [requireUserByRole]
    leave the store as it was. *)
Theorem session_service_reads_only (request : Request) (w : World)
    (redirectTo : option string) (allowedRoles : option (list UserRole)) :
  snd (SessionService.requireUserId request redirectTo w) = w /\
  snd (SessionService.getUser request w) = w /\
  snd (SessionService.getSessionUser request w) = w /\
  snd (SessionService.requireUserByRole request allowedRoles w) = w.
Proof.
  repeat split.
  - unfold SessionService.requireUserId.
    destruct (SessionService.getUserId request) as [userId|]; [|reflexivity].
    destruct (truthy userId); reflexivity.
  - unfold SessionService.getUser, UserService_getUserById. run_M.
    destruct (SessionService.getUserId request) as [userId|]; [|reflexivity].
    simpl. destruct (db_user w !! userId); reflexivity.
  - unfold SessionService.getSessionUser, UserService_getUserById. run_M.
    destruct (SessionService.getUserId request) as [userId|]; [|reflexivity].
    simpl. destruct (db_user w !! userId); reflexivity.
  - apply gate_reads_only.
Qed.


(** X7.  Whatever [requireUserId] throws is a redirect to
    [/login?redirectTo=...] that sets no cookie and whose parameter value
    consists of unreserved bytes, [%] and [+] only: the path cannot add a
    parameter or a fragment to the login URL. *)
Theorem requireUserId_throws_safe_redirect (request : Request)
    (redirectTo : option string) (w : World) (t : Thrown) :
  fst (SessionService.requireUserId request redirectTo w) = Throw t ->
  exists q,
    t = ThrownResponse (redirect ("/login?redirectTo=" +:+ q) None) /\
    URLSearchParams.safe q = true.
Proof.
  unfold SessionService.requireUserId. intros Ht.
  exists (URLSearchParams.encode
            (default (pathname (req_url request)) redirectTo)).
  split; [|apply encode_safe].
  destruct (SessionService.getUserId request) as [userId|].
  - destruct (truthy userId); [discriminate|].
    simpl in Ht. injection Ht as <-. reflexivity.
  - simpl in Ht. injection Ht as <-. reflexivity.
Qed.

(** X8.  [createUserSession] redirects to [redirectTo] and commits the
    request's session with [userId] written into it and every other key
    kept.  A later request that carries the committed session yields that
    user id from [getUserId], and from [requireUserId] when the id is not
    empty. *)
Theorem createUserSession_round_trip (request : Request) (userId : string)
    (remember : bool) (redirectTo : string) :
  let response :=
    SessionService.createUserSession request userId remember redirectTo in
  response_location response = Some redirectTo /\
  exists session,
    committed_session response = Some session /\
    session !! "userId" = Some userId /\
    (forall k, k ≠ "userId" ->
               session !! k = SessionService.getSession request !! k) /\
    forall next,
      req_cookie next = Some session ->
      SessionService.getUserId next = Some userId /\
      (userId ≠ "" ->
       forall r w, SessionService.requireUserId next r w = (Return userId, w)).
Proof.
  simpl. split; [reflexivity|].
  eexists. split; [reflexivity|]. split; [apply lookup_insert_eq|].
  split.
  - intros k Hk. apply lookup_insert_ne.
    intros E. apply Hk. symmetry. exact E.
  - intros next Hnext.
    assert (Hid : SessionService.getUserId next = Some userId).
    { unfold SessionService.getUserId, SessionService.getSession.
      rewrite Hnext. simpl. apply lookup_insert_eq. }
    split; [exact Hid|]. intros Hne r w.
    apply requireUserId_ok; [exact Hid|].
    unfold truthy. apply String.eqb_neq in Hne. rewrite Hne. reflexivity.
Qed.

(* ===================================================================== *)
(** * The choose-organization loader                                     *)
(* ===================================================================== *)

Lemma memberships_of_elem (userId org : string) (m : Membership) (w : World) :
  (org, m) ∈ ChooseOrgPage.memberships_of userId w <->
  db_membership w !! (userId, org) = Some m.
Proof.
  unfold ChooseOrgPage.memberships_of. rewrite list_elem_of_omap. split.
  - intros ([[u o] m'] & Hin & Hf). simpl in Hf.
    case_bool_decide as Hu; [|discriminate]. injection Hf as -> ->.
    apply elem_of_map_to_list in Hin. subst u. exact Hin.
  - intros Hm. exists ((userId, org), m). split.
    + apply elem_of_map_to_list. exact Hm.
    + simpl. rewrite bool_decide_eq_true_2 by reflexivity. reflexivity.
Qed.

Lemma memberships_of_NoDup (userId : string) (w : World) :
  NoDup (ChooseOrgPage.memberships_of userId w).*1.
Proof.
  unfold ChooseOrgPage.memberships_of.
  pose proof (NoDup_fst_map_to_list (db_membership w)) as Hnd.
  induction (map_to_list (db_membership w)) as [|[[u o] m] l IH]; simpl.
  - constructor.
  - simpl in Hnd. apply NoDup_cons in Hnd as [Hnotin Hnd].
    case_bool_decide as Hu; [|exact (IH Hnd)].
    simpl. apply NoDup_cons. split; [|exact (IH Hnd)].
    intros Hin. apply list_elem_of_fmap in Hin as ([o' m'] & Ho & Hin).
    simpl in Ho. subst o'.
    apply list_elem_of_omap in Hin as ([[u' o'] m''] & Hin & Hf).
    simpl in Hf. case_bool_decide as Hu'; [|discriminate].
    injection Hf as -> ->. apply Hnotin.
    apply list_elem_of_fmap. exists ((u', o), m'). split; [|exact Hin].
    simpl. congruence.
Qed.

Lemma Forall2_elem_of_r {A B} (P : A -> B -> Prop) (l : list A) (k : list B)
    (y : B) :
  Forall2 P l k -> y ∈ k -> exists x, x ∈ l /\ P x y.
Proof.
  induction 1 as [|x y' l k HP _ IH]; intros Hy.
  - apply elem_of_nil in Hy. contradiction.
  - apply elem_of_cons in Hy as [->|Hy].
    + exists x. split; [left|exact HP].
    + destruct (IH Hy) as (x' & Hx' & HP'). exists x'. split; [right|]; auto.
Qed.

Lemma Forall2_elem_of_l {A B} (P : A -> B -> Prop) (l : list A) (k : list B)
    (x : A) :
  Forall2 P l k -> x ∈ l -> exists y, y ∈ k /\ P x y.
Proof.
  induction 1 as [|x' y l k HP _ IH]; intros Hx.
  - apply elem_of_nil in Hx. contradiction.
  - apply elem_of_cons in Hx as [->|Hx].
    + exists y. split; [left|exact HP].
    + destruct (IH Hx) as (y' & Hy' & HP'). exists y'. split; [right|]; auto.
Qed.

Lemma select_membership_Some (w : World) (om : string * Membership)
    (c : ChooseOrgPage.OrgChoice) :
  ChooseOrgPage.select_membership w om = Some c <->
  exists org,
    db_organization w !! om.1 = Some org /\
    c = ChooseOrgPage.mkOrgChoice om.1 (org_name org) (m_role om.2)
          (m_isDefault om.2).
Proof.
  unfold ChooseOrgPage.select_membership. split.
  - destruct (db_organization w !! om.1) as [org|]; simpl; [|discriminate].
    intros [= <-]. eauto.
  - intros (org & -> & ->). reflexivity.
Qed.

(** Every run of the loader for a logged-in user. *)
Lemma loader_run (request : Request) (w : World) (userId : string) :
  SessionService.getUserId request = Some userId ->
  truthy userId = true ->
  ChooseOrgPage.loader request w =
    match db_user w !! userId with
    | None => (Throw (ThrownResponse (SessionService.logout request)), w)
    | Some _ =>
        match mapM (ChooseOrgPage.select_membership w)
                   (ChooseOrgPage.memberships_of userId w) with
        | None => (Throw (Error "Inconsistent query result"), w)
        | Some [] =>
            (Return (ChooseOrgPage.redirectWithError "/login" "Error"
                       "You are not a member of any organizations."
                       (Some (destroySession_cookie
                                (SessionService.getSession request)))), w)
        | Some (c :: cs) => (Return (ChooseOrgPage.typedjson_orgs (c :: cs)), w)
        end
    end.
Proof.
  intros Hid Ht. unfold ChooseOrgPage.loader.
  rewrite (bind_requireUserId_ok _ _ _ _ Hid Ht).
  unfold ChooseOrgPage.user_findUnique_memberships. run_M.
  destruct (db_user w !! userId); [|reflexivity].
  destruct (mapM _ _) as [[|c cs]|]; reflexivity.
Qed.

Section Loader.

Variables (request : Request) (w : World) (userId : string).
Hypothesis Hid : SessionService.getUserId request = Some userId.
Hypothesis Htruthy : truthy userId = true.

(** X9.  For a stored user without any membership the loader does not
    return an empty list: it answers with the error redirect to [/login]
    whose cookie destroys the request's session, and writes nothing. *)
Theorem loader_without_memberships :
  is_Some (db_user w !! userId) ->
  (forall org, db_membership w !! (userId, org) = None) ->
  ChooseOrgPage.loader request w =
    (Return (ChooseOrgPage.redirectWithError "/login" "Error"
               "You are not a member of any organizations."
               (Some (destroySession_cookie
                        (SessionService.getSession request)))), w).
Proof using Hid Htruthy.
  intros [u Hu] Hnone. rewrite (loader_run _ _ _ Hid Htruthy), Hu.
  assert (Hnil : ChooseOrgPage.memberships_of userId w = []).
  { apply elem_of_nil_inv. intros [org m] Hin.
    apply memberships_of_elem in Hin. rewrite Hnone in Hin. discriminate. }
  rewrite Hnil. reflexivity.
Qed.

(** The list returned by the loader, against the store. *)
Lemma loader_orgs_spec (orgs : list ChooseOrgPage.OrgChoice) (w' : World) :
  ChooseOrgPage.loader request w
    = (Return (ChooseOrgPage.typedjson_orgs orgs), w') ->
  w' = w /\ orgs ≠ [] /\
  Forall2 (fun om c => ChooseOrgPage.select_membership w om = Some c)
          (ChooseOrgPage.memberships_of userId w) orgs.
Proof using Hid Htruthy.
  rewrite (loader_run _ _ _ Hid Htruthy).
  destruct (db_user w !! userId); [|discriminate].
  destruct (mapM _ _) as [[|c cs]|] eqn:Hm; try discriminate.
  intros [= <- <-]. split; [reflexivity|]. split; [discriminate|].
  apply mapM_Some. exact Hm.
Qed.

(** X10.  When the loader returns a list, the list is not empty, names no
    organization twice, and its entries are exactly the user's memberships:
    one entry per membership row, with the row's role and default flag and
    the organization's name. *)
Theorem loader_lists_memberships (orgs : list ChooseOrgPage.OrgChoice)
    (w' : World) :
  ChooseOrgPage.loader request w
    = (Return (ChooseOrgPage.typedjson_orgs orgs), w') ->
  w' = w /\ orgs ≠ [] /\
  NoDup (ChooseOrgPage.oc_id <$> orgs) /\
  forall c,
    c ∈ orgs <->
    exists m org,
      db_membership w !! (userId, ChooseOrgPage.oc_id c) = Some m /\
      db_organization w !! ChooseOrgPage.oc_id c = Some org /\
      c = ChooseOrgPage.mkOrgChoice (ChooseOrgPage.oc_id c) (org_name org)
            (m_role m) (m_isDefault m).
Proof using Hid Htruthy.
  intros Hrun. destruct (loader_orgs_spec _ _ Hrun) as (Hw & Hne & Hall).
  split; [exact Hw|]. split; [exact Hne|]. split.
  - assert (Hids : ChooseOrgPage.oc_id <$> orgs
                   = (ChooseOrgPage.memberships_of userId w).*1).
    { clear Hne Hrun. induction Hall as [|om c l k Hs _ IH]; [reflexivity|].
      rewrite !fmap_cons, IH. f_equal.
      apply select_membership_Some in Hs as (org & _ & ->). reflexivity. }
    rewrite Hids. apply memberships_of_NoDup.
  - intros c. split.
    + intros Hc.
      destruct (Forall2_elem_of_r _ _ _ _ Hall Hc) as ([o m] & Hin & Hs).
      apply memberships_of_elem in Hin.
      apply select_membership_Some in Hs as (org & Horg & ->).
      simpl in *. eauto.
    + intros (m & org & Hm & Horg & Hc).
      apply memberships_of_elem in Hm.
      destruct (Forall2_elem_of_l _ _ _ _ Hall Hm) as (c' & Hc' & Hs).
      apply select_membership_Some in Hs as (org' & Horg' & ->).
      simpl in Horg'. rewrite Horg in Horg'. injection Horg' as <-.
      rewrite Hc. exact Hc'.
Qed.

End Loader.

(* ===================================================================== *)
(** * Organization selection: every run of the action                    *)
(* ===================================================================== *)

Section SelectionRuns.

Context `{Platform}.

(** Either [action] writes nothing and sets no cookie, or it is the run of
    a logged-in member with a valid form. *)
Lemma action_cases (request : Request) (w : World) :
  (snd (ChooseOrg.action request w) = w /\
   outcome_set_cookie (fst (ChooseOrg.action request w)) = None) \/
  exists userId data m,
    SessionService.getUserId request = Some userId /\
    truthy userId = true /\
    ChooseOrg.validate (req_formData request) = inr data /\
    db_membership w !! (userId, ChooseOrg.orgId data) = Some m /\
    ChooseOrg.action request w
      = (selection_outcome request data, after_selection userId data m w).
Proof.
  destruct (SessionService.getUserId request) as [userId|] eqn:Hid.
  2:{ left. unfold ChooseOrg.action, SessionService.requireUserId.
      rewrite Hid. run_M. split; reflexivity. }
  destruct (truthy userId) eqn:Ht.
  2:{ left. unfold ChooseOrg.action, SessionService.requireUserId.
      rewrite Hid, Ht. run_M. split; reflexivity. }
  destruct (ChooseOrg.validate (req_formData request)) as [fields|data] eqn:Hv.
  { left. unfold ChooseOrg.action.
    rewrite (bind_requireUserId_ok _ _ _ _ Hid Ht), Hv. split; reflexivity. }
  destruct (db_membership w !! (userId, ChooseOrg.orgId data)) as [m|] eqn:Hm.
  - right. exists userId, data, m. repeat split; try assumption.
    apply (action_member request w userId Hid Ht data m Hv Hm).
  - left. unfold ChooseOrg.action.
    rewrite (bind_requireUserId_ok _ _ _ _ Hid Ht), Hv.
    unfold db.membership_findUniqueOrThrow. run_M. rewrite Hm.
    split; reflexivity.
Qed.

Lemma after_selection_tables (userId : string) (data : ChooseOrg.FormValues)
    (m : Membership) (w : World) :
  db_user (after_selection userId data m w) = db_user w /\
  db_organization (after_selection userId data m w) = db_organization w /\
  sentry_captured (after_selection userId data m w) = sentry_captured w.
Proof.
  unfold after_selection.
  destruct (ChooseOrg.rememberSelection data); repeat split.
Qed.

Lemma after_selection_lookup (userId : string) (data : ChooseOrg.FormValues)
    (m : Membership) (w : World) (k : string * string) :
  db_membership w !! (userId, ChooseOrg.orgId data) = Some m ->
  db_membership (after_selection userId data m w) !! k =
    (fun m0 =>
       if ChooseOrg.rememberSelection data
       then if bool_decide (k = (userId, ChooseOrg.orgId data))
            then set_isDefault true m0 else m0
       else if bool_decide (k.1 = userId)
            then set_isDefault false m0 else m0)
    <$> db_membership w !! k.
Proof.
  intros Hm. unfold after_selection.
  destruct (ChooseOrg.rememberSelection data); simpl.
  - case_bool_decide as Hk.
    + subst k. rewrite lookup_insert_eq, Hm. reflexivity.
    + rewrite lookup_insert_ne by congruence.
      destruct (db_membership w !! k); reflexivity.
  - rewrite map_lookup_imap.
    destruct (db_membership w !! k); reflexivity.
Qed.

(** X11.  Whatever the request, [action] leaves the user, organization and
    Sentry parts of the store alone, creates and deletes no membership,
    changes no membership's id or role, and changes a default flag only on a
    membership of the session's own user. *)
Theorem action_preserves_memberships (request : Request) (w : World) :
  db_user (snd (ChooseOrg.action request w)) = db_user w /\
  db_organization (snd (ChooseOrg.action request w)) = db_organization w /\
  sentry_captured (snd (ChooseOrg.action request w)) = sentry_captured w /\
  forall k,
    option_Forall2
      (row_kept (SessionService.getUserId request = Some k.1))
      (db_membership (snd (ChooseOrg.action request w)) !! k)
      (db_membership w !! k).
Proof.
  destruct (action_cases request w)
    as [[Hw _] | (userId & data & m & Hid & Ht & Hv & Hm & Hrun)].
  - rewrite Hw. repeat split.
    intros k. destruct (db_membership w !! k); constructor.
    repeat split. congruence.
  - rewrite Hrun. simpl.
    destruct (after_selection_tables userId data m w) as (-> & -> & ->).
    repeat split. intros k. rewrite (after_selection_lookup _ _ _ _ k Hm).
    destruct (db_membership w !! k) as [m0|]; simpl; constructor.
    destruct (ChooseOrg.rememberSelection data).
    + case_bool_decide as Hk; repeat split; try congruence.
      intros _. subst k. exact Hid.
    + case_bool_decide as Hk; repeat split; try congruence.
      all: intros _; rewrite Hk; exact Hid.
Qed.

Lemma after_selection_again (userId : string) (data : ChooseOrg.FormValues)
    (m m1 : Membership) (w : World) :
  db_membership w !! (userId, ChooseOrg.orgId data) = Some m ->
  db_membership (after_selection userId data m w)
    !! (userId, ChooseOrg.orgId data) = Some m1 ->
  after_selection userId data m1 (after_selection userId data m w)
    = after_selection userId data m w.
Proof.
  intros Hm Hm1. rewrite (after_selection_lookup _ _ _ _ _ Hm), Hm in Hm1.
  simpl in Hm1. unfold after_selection in *.
  destruct (ChooseOrg.rememberSelection data); simpl in *.
  - rewrite bool_decide_eq_true_2 in Hm1 by reflexivity.
    injection Hm1 as <-. unfold set_db_membership. simpl. f_equal.
    apply insert_insert_eq.
  - unfold set_db_membership. simpl. f_equal.
    apply map_eq. intros k. rewrite !map_lookup_imap.
    destruct (db_membership w !! k) as [m0|]; simpl; [|reflexivity].
    destruct (bool_decide (k.1 = userId)); reflexivity.
Qed.

(** X12.  Submitting the same selection again changes nothing more:
    running [action] on the store it left gives the same response and the
    same store. *)
Theorem action_idempotent (request : Request) (w : World) :
  ChooseOrg.action request (snd (ChooseOrg.action request w))
    = ChooseOrg.action request w.
Proof.
  destruct (action_cases request w)
    as [[Hw _] | (userId & data & m & Hid & Ht & Hv & Hm & Hrun)].
  - rewrite Hw. reflexivity.
  - rewrite Hrun. simpl.
    assert (Hm1 : exists m1,
      db_membership (after_selection userId data m w)
        !! (userId, ChooseOrg.orgId data) = Some m1).
    { rewrite (after_selection_lookup _ _ _ _ _ Hm), Hm. simpl. eauto. }
    destruct Hm1 as [m1 Hm1].
    rewrite (action_member request _ userId Hid Ht data m1 Hv Hm1).
    fold (selection_outcome request data).
    rewrite (after_selection_again _ _ _ _ _ Hm Hm1). reflexivity.
Qed.

End SelectionRuns.

Lemma truthy_true_iff (s : string) : truthy s = true <-> s ≠ "".
Proof.
  unfold truthy. destruct (String.eqb s "") eqn:E; simpl.
  - apply String.eqb_eq in E. split; [discriminate|congruence].
  - apply String.eqb_neq in E. tauto.
Qed.

Lemma follow_up_requireUserId (session : Session) (userId : string)
    (next : Request) (w : World) :
  session !! "userId" = Some userId ->
  truthy userId = true ->
  req_cookie next = Some session ->
  SessionService.requireUserId next None w = (Return userId, w).
Proof.
  intros Hs Ht Hnext. apply requireUserId_ok; [|exact Ht].
  unfold SessionService.getUserId, SessionService.getSession.
  rewrite Hnext. exact Hs.
Qed.

Section SelectionEdges.

Context `{Platform}.

(** X13.  Both handlers of the route ask for a logged-in user first: with
    no user id in the session, or an empty one, [action] and [loader] throw
    the redirect to the login page carrying the request's pathname, and
    write nothing. *)
Theorem choose_org_requires_login (request : Request) (w : World) :
  SessionService.getUserId request = None \/
  SessionService.getUserId request = Some "" ->
  ChooseOrg.action request w
    = (Throw (login_redirect (pathname (req_url request))), w) /\
  ChooseOrgPage.loader request w
    = (Throw (login_redirect (pathname (req_url request))), w).
Proof.
  intros Hid.
  unfold ChooseOrg.action, ChooseOrgPage.loader, SessionService.requireUserId.
  run_M. destruct Hid as [-> | ->]; split; reflexivity.
Qed.

Section LoggedIn.

Variables (request : Request) (w : World) (userId : string).
Hypothesis Hid : SessionService.getUserId request = Some userId.
Hypothesis Htruthy : truthy userId = true.


(** X15.  For a valid submission by a member whose target parses, the
    response commits a session in which [organizationId] is the selected
    organization and every other key of the request's session, the user id
    included, is kept: a later request carrying that session is still
    logged in as the same user. *)
Theorem action_commits_selection (data : ChooseOrg.FormValues) :
  ChooseOrg.validate (req_formData request) = inr data ->
  is_Some (db_membership w !! (userId, ChooseOrg.orgId data)) ->
  is_Some (URL_href (default "/" (ChooseOrg.redirectTo data))
                    (origin (req_url request))) ->
  exists response session,
    fst (ChooseOrg.action request w) = Return response /\
    committed_session response = Some session /\
    session !! "organizationId" = Some (ChooseOrg.orgId data) /\
    session !! "userId" = Some userId /\
    (forall k, k ≠ "organizationId" ->
               session !! k = SessionService.getSession request !! k) /\
    forall next w',
      req_cookie next = Some session ->
      SessionService.requireUserId next None w' = (Return userId, w').
Proof using Hid Htruthy.
  intros Hv [m Hm] [href Hhref].
  rewrite (action_member request w userId Hid Htruthy data m Hv Hm).
  rewrite Hhref. simpl. eexists. eexists.
  split; [reflexivity|]. split; [reflexivity|].
  assert (Hkeep : forall k, k ≠ "organizationId" ->
            (<[ORGANIZATION_SESSION_KEY := ChooseOrg.orgId data]>
               (SessionService.getSession request) : Session) !! k
            = SessionService.getSession request !! k).
  { intros k Hk. apply lookup_insert_ne. intros E. apply Hk. symmetry. exact E. }
  assert (Huser :
            (<[ORGANIZATION_SESSION_KEY := ChooseOrg.orgId data]>
               (SessionService.getSession request) : Session) !! "userId"
            = Some userId).
  { rewrite Hkeep by discriminate. exact Hid. }
  split; [apply lookup_insert_eq|]. split; [exact Huser|].
  split; [exact Hkeep|].
  intros next w' Hnext.
  exact (follow_up_requireUserId _ _ _ _ Huser Htruthy Hnext).
Qed.

(** X16.  When the submitted target does not parse, [action] throws the
    [TypeError] of [new URL] after its membership writes: no cookie is set,
    yet the default flags are already changed as for a successful
    selection. *)
Theorem action_unparsable_target (data : ChooseOrg.FormValues)
    (m : Membership) :
  ChooseOrg.validate (req_formData request) = inr data ->
  db_membership w !! (userId, ChooseOrg.orgId data) = Some m ->
  URL_href (default "/" (ChooseOrg.redirectTo data))
           (origin (req_url request)) = None ->
  fst (ChooseOrg.action request w) = Throw TypeError_InvalidURL /\
  outcome_set_cookie (fst (ChooseOrg.action request w)) = None /\
  (ChooseOrg.rememberSelection data = true ->
   db_membership (snd (ChooseOrg.action request w))
     !! (userId, ChooseOrg.orgId data) = Some (set_isDefault true m)) /\
  (ChooseOrg.rememberSelection data = false ->
   forall org m',
     db_membership (snd (ChooseOrg.action request w)) !! (userId, org)
       = Some m' ->
     m_isDefault m' = false).
Proof using Hid Htruthy.
  intros Hv Hm Hurl.
  rewrite (action_member request w userId Hid Htruthy data m Hv Hm).
  rewrite Hurl. simpl. split; [reflexivity|]. split; [reflexivity|]. split.
  - intros Hr. rewrite (after_selection_lookup _ _ _ _ _ Hm), Hm, Hr. simpl.
    rewrite bool_decide_eq_true_2 by reflexivity. reflexivity.
  - intros Hr org m'. rewrite (after_selection_lookup _ _ _ _ _ Hm), Hr.
    simpl. rewrite bool_decide_eq_true_2 by reflexivity.
    destruct (db_membership w !! (userId, org)); simpl; [|discriminate].
    intros [= <-]. reflexivity.
Qed.

(** X17.  Every organization the loader lists can be selected: a valid
    form naming a listed organization passes the membership check of
    [action], which then answers with the redirect (or with the
    [TypeError] of an unparsable target), never with the not-found
    error. *)
Theorem listed_org_is_selectable (orgs : list ChooseOrgPage.OrgChoice)
    (w' : World) (c : ChooseOrgPage.OrgChoice) (submit : Request)
    (data : ChooseOrg.FormValues) :
  ChooseOrgPage.loader request w
    = (Return (ChooseOrgPage.typedjson_orgs orgs), w') ->
  c ∈ orgs ->
  SessionService.getUserId submit = Some userId ->
  ChooseOrg.validate (req_formData submit) = inr data ->
  ChooseOrg.orgId data = ChooseOrgPage.oc_id c ->
  fst (ChooseOrg.action submit w) = selection_outcome submit data /\
  fst (ChooseOrg.action submit w) ≠ Throw NotFoundError.
Proof using Hid Htruthy.
  intros Hload Hc Hid' Hv Horg.
  destruct (loader_orgs_spec request w userId Hid Htruthy _ _ Hload)
    as (_ & _ & Hall).
  destruct (Forall2_elem_of_r _ _ _ _ Hall Hc) as ([o m] & Hin & Hs).
  apply memberships_of_elem in Hin.
  apply select_membership_Some in Hs as (org & _ & ->). simpl in Horg.
  rewrite <- Horg in Hin.
  rewrite (action_member submit w userId Hid' Htruthy data m Hv Hin).
  simpl. fold (selection_outcome submit data). split; [reflexivity|].
  unfold selection_outcome. destruct (URL_href _ _); discriminate.
Qed.

(** X18.  The "Remember selection" box of the page follows the last
    selection: when the loader runs for the same user on the store a
    member's valid selection left, the box is checked by default exactly
    when that selection was remembered. *)
Theorem remember_box_follows_selection (data : ChooseOrg.FormValues)
    (page : Request) (orgs : list ChooseOrgPage.OrgChoice) (w' : World) :
  ChooseOrg.validate (req_formData request) = inr data ->
  is_Some (db_membership w !! (userId, ChooseOrg.orgId data)) ->
  SessionService.getUserId page = Some userId ->
  ChooseOrgPage.loader page (snd (ChooseOrg.action request w))
    = (Return (ChooseOrgPage.typedjson_orgs orgs), w') ->
  ChooseOrgPage.rememberSelection_defaultChecked orgs
    = ChooseOrg.rememberSelection data.
Proof using Hid Htruthy.
  intros Hv [m Hm] Hpage.
  rewrite (action_member request w userId Hid Htruthy data m Hv Hm). simpl.
  intros Hload.
  destruct (loader_orgs_spec page _ userId Hpage Htruthy _ _ Hload)
    as (_ & _ & Hall).
  unfold ChooseOrgPage.rememberSelection_defaultChecked.
  destruct (ChooseOrg.rememberSelection data) eqn:Hr.
  - apply existsb_exists.
    assert (Hin : (ChooseOrg.orgId data, set_isDefault true m)
                  ∈ ChooseOrgPage.memberships_of userId
                      (after_selection userId data m w)).
    { apply memberships_of_elem.
      rewrite (after_selection_lookup _ _ _ _ _ Hm), Hm, Hr. simpl.
      rewrite bool_decide_eq_true_2 by reflexivity. reflexivity. }
    destruct (Forall2_elem_of_l _ _ _ _ Hall Hin) as (c & Hc & Hs).
    apply select_membership_Some in Hs as (org & _ & ->).
    eexists. split; [apply list_elem_of_In; exact Hc|]. reflexivity.
  - destruct (existsb ChooseOrgPage.oc_isDefault orgs) eqn:E; [|reflexivity].
    apply existsb_exists in E as (c & Hc & Hd).
    apply list_elem_of_In in Hc.
    destruct (Forall2_elem_of_r _ _ _ _ Hall Hc) as ([o m'] & Hin & Hs).
    apply memberships_of_elem in Hin.
    apply select_membership_Some in Hs as (org & _ & ->). simpl in Hd.
    rewrite (after_selection_lookup _ _ _ _ _ Hm), Hr in Hin. simpl in Hin.
    rewrite bool_decide_eq_true_2 in Hin by reflexivity.
    destruct (db_membership w !! (userId, o)); simpl in Hin; [|discriminate].
    injection Hin as <-. simpl in Hd. discriminate.
Qed.

End LoggedIn.

End SelectionEdges.

(* ===================================================================== *)
(** * Mail senders: every run                                            *)
(* ===================================================================== *)

Lemma capture_nil (w : World) : capture [] w = w.
Proof.
  destruct w. unfold capture. simpl. rewrite app_nil_r. reflexivity.
Qed.

Lemma find_user_None (w : World) (username : string) :
  List.find (fun u => String.eqb (user_username u) username)
            (map_to_list (db_user w)).*2 = None <->
  no_user_named w username.
Proof.
  unfold no_user_named. split.
  - intros Hnone id u Hu Hname.
    assert (Hin : In u (map_to_list (db_user w)).*2).
    { apply list_elem_of_In, list_elem_of_fmap. exists (id, u).
      split; [reflexivity|]. apply elem_of_map_to_list. exact Hu. }
    pose proof (find_none _ _ Hnone u Hin) as Hf. simpl in Hf.
    apply String.eqb_neq in Hf. contradiction.
  - intros Hno.
    destruct (List.find _ _) as [u|] eqn:Hf; [|reflexivity].
    apply find_some in Hf as [Hin Hname].
    apply list_elem_of_In, list_elem_of_fmap in Hin as ([id u'] & -> & Hin).
    apply elem_of_map_to_list in Hin. apply String.eqb_eq in Hname.
    exfalso. exact (Hno id u' Hin Hname).
Qed.

Section MailRuns.

Context `{Platform}.

(** Every run of the password-reset sender. *)
Lemma sendPasswordResetEmail_run (email token orgId : string) (w : World) :
  Mail.sendPasswordResetEmail email token orgId w =
    match db_organization w !! orgId with
    | None => (Throw NotFoundError, w)
    | Some org =>
        match URL_href "/passwords/new" (Mail.org_base org) with
        | None => (Throw TypeError_InvalidURL, w)
        | Some href =>
            match sendEmail (reset_mail org email token href) with
            | Return data => (Return (Mail.result_data data), w)
            | Throw error => (Return (Mail.result_error error), capture [error] w)
            end
        end
    end.
Proof.
  unfold Mail.sendPasswordResetEmail, db.organization_findUniqueOrThrow,
    new_URL_href, Mail.Sentry_captureException, reset_mail, capture.
  run_M. destruct (db_organization w !! orgId) as [org|]; [|reflexivity].
  simpl. destruct (URL_href _ _) as [href|]; [|reflexivity].
  simpl. destruct (sendEmail _); reflexivity.
Qed.

(** Every run of the password-setup sender. *)
Lemma sendPasswordSetupEmail_run (email token orgId : string) (w : World) :
  Mail.sendPasswordSetupEmail email token orgId w =
    match db_organization w !! orgId with
    | None => (Throw NotFoundError, w)
    | Some org =>
        match List.find (fun u => String.eqb (user_username u) email)
                        (map_to_list (db_user w)).*2 with
        | None => (Throw NotFoundError, w)
        | Some user =>
            match URL_href "/passwords/new" (Mail.org_base org) with
            | None => (Throw TypeError_InvalidURL, w)
            | Some href =>
                match sendEmail
                        {| email_from := Mail.org_from org;
                           email_to := email;
                           email_subject := "Setup Your Password";
                           email_html :=
                             render_WelcomeEmail (user_contact_firstName user)
                               (org_name org)
                               (href +:+ "?token=" +:+
                                URLSearchParams.encode token) |} with
                | Return data => (Return (Mail.result_data data), w)
                | Throw error =>
                    (Return (Mail.result_error error), capture [error] w)
                end
            end
        end
    end.
Proof.
  unfold Mail.sendPasswordSetupEmail, db.organization_findUniqueOrThrow,
    db.user_findUniqueOrThrow_username, new_URL_href,
    Mail.Sentry_captureException, capture.
  run_M. destruct (db_organization w !! orgId) as [org|]; [|reflexivity].
  simpl. destruct (List.find _ _) as [user|]; [|reflexivity].
  simpl. destruct (URL_href _ _) as [href|]; [|reflexivity].
  simpl. destruct (sendEmail _); reflexivity.
Qed.

(** Every run of the reimbursement sender. *)
Lemma sendReimbursementRequestUpdateEmail_run
    (email status orgId : string) (note : option string) (w : World) :
  Mail.sendReimbursementRequestUpdateEmail email status orgId note w =
    match db_organization w !! orgId with
    | None => (Return (Mail.result_error NotFoundError),
               capture [NotFoundError] w)
    | Some org =>
        match sendEmail (update_mail org email status note) with
        | Return data => (Return (Mail.result_data data), w)
        | Throw error => (Return (Mail.result_error error), capture [error] w)
        end
    end.
Proof.
  unfold Mail.sendReimbursementRequestUpdateEmail,
    db.organization_findUniqueOrThrow, Mail.Sentry_captureException,
    update_mail, capture.
  run_M. destruct (db_organization w !! orgId) as [org|]; [|reflexivity].
  simpl. destruct (sendEmail _); reflexivity.
Qed.

(** X19.  A sender changes nothing in the database, and reports to Sentry
    exactly what it returns as [{ error }]: the store after a run is the
    store before with that one error appended to the captured exceptions,
    and unchanged when the sender returns [{ data }] or throws. *)
Theorem senders_report_what_they_return
    (email token status orgId : string) (note : option string) (w : World) :
  (let run := Mail.sendPasswordResetEmail email token orgId w in
   snd run = capture (reported (fst run)) w) /\
  (let run := Mail.sendPasswordSetupEmail email token orgId w in
   snd run = capture (reported (fst run)) w) /\
  (let run := Mail.sendReimbursementRequestUpdateEmail email status orgId note w in
   snd run = capture (reported (fst run)) w).
Proof.
  cbv zeta.
  rewrite sendPasswordResetEmail_run, sendPasswordSetupEmail_run,
    sendReimbursementRequestUpdateEmail_run.
  destruct (db_organization w !! orgId) as [org|]; simpl.
  2:{ rewrite capture_nil. repeat split. }
  repeat split.
  - destruct (URL_href _ _); simpl; [|symmetry; apply capture_nil].
    destruct (sendEmail _); simpl; [symmetry; apply capture_nil|reflexivity].
  - destruct (List.find _ _); simpl; [|symmetry; apply capture_nil].
    destruct (URL_href _ _); simpl; [|symmetry; apply capture_nil].
    destruct (sendEmail _); simpl; [symmetry; apply capture_nil|reflexivity].
  - destruct (sendEmail _); simpl; [symmetry; apply capture_nil|reflexivity].
Qed.

(** X20.  The password senders throw exactly when a lookup or the
    construction of the link fails: the reset sender when the organization
    is missing (not-found error) or its URL does not parse ([TypeError]);
    the setup sender also when no user has the given username.  A failure
    of the mail provider never makes them throw. *)
Theorem password_senders_throw_iff (email token orgId : string) (w : World)
    (t : Thrown) :
  (fst (Mail.sendPasswordResetEmail email token orgId w) = Throw t <->
   (db_organization w !! orgId = None /\ t = NotFoundError) \/
   (exists org,
       db_organization w !! orgId = Some org /\
       URL_href "/passwords/new" (Mail.org_base org) = None /\
       t = TypeError_InvalidURL)) /\
  (fst (Mail.sendPasswordSetupEmail email token orgId w) = Throw t <->
   (db_organization w !! orgId = None /\ t = NotFoundError) \/
   (is_Some (db_organization w !! orgId) /\
    no_user_named w email /\ t = NotFoundError) \/
   (exists org,
       db_organization w !! orgId = Some org /\
       ~ no_user_named w email /\
       URL_href "/passwords/new" (Mail.org_base org) = None /\
       t = TypeError_InvalidURL)).
Proof.
  rewrite sendPasswordResetEmail_run, sendPasswordSetupEmail_run.
  rewrite <- find_user_None.
  destruct (db_organization w !! orgId) as [org|]; simpl.
  2:{ split; (split;
        [ intros [= <-]; left; auto
        | intros [[_ ->]|Hc]; [reflexivity|] ]).
      - destruct Hc as (org & Hc & _). discriminate Hc.
      - destruct Hc as [([org Hc] & _)|(org & Hc & _)]; discriminate Hc. }
  split.
  - destruct (URL_href _ _) as [href|] eqn:Hurl; simpl.
    + split.
      * destruct (sendEmail _); discriminate.
      * intros [[Hc _]|(org' & [= <-] & Hc & _)]; [discriminate Hc|].
        rewrite Hurl in Hc. discriminate Hc.
    + split.
      * intros [= <-]. right. eauto.
      * intros [[Hc _]|(org' & _ & _ & ->)]; [discriminate Hc|reflexivity].
  - destruct (List.find _ _) as [user|] eqn:Hfind; simpl.
    + destruct (URL_href _ _) as [href|] eqn:Hurl; simpl.
      * split.
        -- destruct (sendEmail _); discriminate.
        -- intros [[Hc _]|[(_ & Hc & _)|(org' & [= <-] & _ & Hc & _)]];
             [discriminate Hc|discriminate Hc|].
           rewrite Hurl in Hc. discriminate Hc.
      * split.
        -- intros [= <-]. right. right. exists org.
           split; [reflexivity|]. split.
           { intros Hno. apply find_user_None in Hno.
             rewrite Hfind in Hno. discriminate Hno. }
           split; [exact Hurl|reflexivity].
        -- intros [[Hc _]|[(_ & Hc & _)|(org' & _ & _ & _ & ->)]];
             [discriminate Hc|discriminate Hc|reflexivity].
    + split.
      * intros [= <-]. right. left. eauto.
      * intros [[Hc _]|[(_ & _ & ->)|(org' & _ & Hc & _)]];
          [discriminate Hc|reflexivity|].
        exfalso. apply Hc. apply find_user_None. exact Hfind.
Qed.

(** X21.  The reimbursement sender never throws.  It returns [{ data }]
    exactly when the organization exists and the provider accepts the mail
    (sent to the given address, from the organization's reply address,
    with the capitalized status in its subject); a missing organization is
    returned as [{ error }] with the lookup's not-found error. *)
Theorem reimbursement_sender_outcomes
    (email status orgId : string) (note : option string) (w : World) :
  let run := Mail.sendReimbursementRequestUpdateEmail email status orgId note w in
  (forall t, fst run ≠ Throw t) /\
  (forall data,
      fst run = Return (Mail.result_data data) <->
      exists org,
        db_organization w !! orgId = Some org /\
        sendEmail (update_mail org email status note) = Return data) /\
  (db_organization w !! orgId = None ->
   fst run = Return (Mail.result_error NotFoundError)).
Proof.
  cbv zeta. rewrite sendReimbursementRequestUpdateEmail_run.
  destruct (db_organization w !! orgId) as [org|]; simpl.
  - destruct (sendEmail _) as [d|e] eqn:Hsend; simpl; repeat split;
      try discriminate.
    + intros [= <-]. eauto.
    + intros (org' & [= <-] & Hs). rewrite Hsend in Hs.
      injection Hs as <-. reflexivity.
    + intros (org' & [= <-] & Hs). rewrite Hsend in Hs. discriminate Hs.
  - repeat split; try discriminate.
    intros (org' & Hc & _). discriminate Hc.
Qed.

(** X22.  The reset sender returns [{ data }] exactly when the
    organization exists, its URL parses and the provider accepts the mail,
    and [{ error }] exactly when the provider throws that error.  The mail
    goes to the given address; its link is the organization's
    [/passwords/new] page with the token, form-urlencoded, and
    [isReset=true] as query. *)
Theorem reset_sender_outcomes (email token orgId : string) (w : World) :
  let run := Mail.sendPasswordResetEmail email token orgId w in
  (forall data,
      fst run = Return (Mail.result_data data) <->
      exists org href,
        db_organization w !! orgId = Some org /\
        URL_href "/passwords/new" (Mail.org_base org) = Some href /\
        sendEmail (reset_mail org email token href) = Return data) /\
  (forall error,
      fst run = Return (Mail.result_error error) <->
      exists org href,
        db_organization w !! orgId = Some org /\
        URL_href "/passwords/new" (Mail.org_base org) = Some href /\
        sendEmail (reset_mail org email token href) = Throw error).
Proof.
  cbv zeta. rewrite sendPasswordResetEmail_run.
  destruct (db_organization w !! orgId) as [org|]; simpl.
  2:{ split; intros x; (split; [discriminate|]);
        intros (org & href & Hc & _); discriminate Hc. }
  destruct (URL_href _ _) as [href|] eqn:Hurl; simpl.
  2:{ split; intros x; (split; [discriminate|]);
        intros (org' & href & [= <-] & Hc & _); rewrite Hurl in Hc;
        discriminate Hc. }
  destruct (sendEmail _) as [d|e] eqn:Hsend; simpl; split; intros x; split.
  - intros [= <-]. eauto.
  - intros (org' & href' & [= <-] & Hu & Hs). rewrite Hurl in Hu.
    injection Hu as <-. rewrite Hsend in Hs. injection Hs as <-. reflexivity.
  - discriminate.
  - intros (org' & href' & [= <-] & Hu & Hs). rewrite Hurl in Hu.
    injection Hu as <-. rewrite Hsend in Hs. discriminate Hs.
  - discriminate.
  - intros (org' & href' & [= <-] & Hu & Hs). rewrite Hurl in Hu.
    injection Hu as <-. rewrite Hsend in Hs. discriminate Hs.
  - intros [= <-]. eauto.
  - intros (org' & href' & [= <-] & Hu & Hs). rewrite Hurl in Hu.
    injection Hu as <-. rewrite Hsend in Hs. injection Hs as <-. reflexivity.
Qed.

End MailRuns.

(* ===================================================================== *)
(** * The reimbursement action                                           *)
(* ===================================================================== *)

Ltac run_B :=
  unfold mbind, mret, Reimbursement.B_bind, Reimbursement.B_ret,
    Reimbursement.B_throw, Reimbursement.get_ledger, Reimbursement.put_ledger;
  simpl.

Lemma bind_liftM_requireAdmin {C} (request : Request) (w : World)
    (l : Reimbursement.Ledger) (k : User -> Reimbursement.B C) :
  (Reimbursement.liftM (SessionService.requireAdmin request) ≫= k) (w, l)
    = match fst (SessionService.requireAdmin request w) with
      | Return u => k u (w, l)
      | Throw t => (Throw t, (w, l))
      end.
Proof.
  unfold mbind, Reimbursement.B_bind, Reimbursement.liftM. simpl.
  pose proof (gate_reads_only request (Some [ADMIN]) w) as Hw.
  fold (SessionService.requireAdmin request) in Hw.
  destruct (SessionService.requireAdmin request w) as [o w']. simpl in *.
  subst w'. destruct o; reflexivity.
Qed.

Lemma balance_app (l : Reimbursement.Ledger)
    (new : list Reimbursement.Transaction) :
  foldr Z.add 0%Z
    (Reimbursement.tx_amountInCents <$> (Reimbursement.db_transaction l ++ new)%list)
  = (ledger_balance l + foldr Z.add 0 (Reimbursement.tx_amountInCents <$> new))%Z.
Proof.
  unfold ledger_balance. rewrite fmap_app, foldr_app.
  induction (Reimbursement.tx_amountInCents <$> Reimbursement.db_transaction l)
    as [|x xs IH]; simpl; lia.
Qed.

Section ReimbursementAction.

Context `{Reimbursement.Collaborators}.

(** X24.  The gate comes before every write: when [requireAdmin] throws
    (no session user, a user that is neither [ADMIN] nor [SUPERADMIN], a
    user id without stored user), the action throws the same value and
    the ledger is as it was, whatever the form. *)
Theorem reimbursement_action_requires_admin (request : Request) (w : World)
    (l : Reimbursement.Ledger) (t : Thrown) :
  fst (SessionService.requireAdmin request w) = Throw t ->
  Reimbursement.action request (w, l) = (Throw t, (w, l)).
Proof.
  intros Hgate. unfold Reimbursement.action.
  rewrite bind_liftM_requireAdmin, Hgate. reflexivity.
Qed.

(** X25.  Whatever the request, the action keeps the books balanced and
    the master data fixed: it leaves the store of the session service and
    the accounts alone, deletes no transaction, adds either none or two
    whose amounts cancel, so that the sum of all transaction amounts is
    unchanged; and it creates or deletes no reimbursement request and
    changes no request's account or amount. *)
Theorem reimbursement_action_keeps_balance (request : Request) (w : World)
    (l : Reimbursement.Ledger) :
  let s' := snd (Reimbursement.action request (w, l)) in
  s'.1 = w /\
  Reimbursement.db_account s'.2 = Reimbursement.db_account l /\
  (exists new,
      Reimbursement.db_transaction s'.2 = (Reimbursement.db_transaction l ++ new)%list /\
      (new = [] \/
       exists incoming outgoing,
         new = [incoming; outgoing] /\
         (Reimbursement.tx_amountInCents incoming
          + Reimbursement.tx_amountInCents outgoing = 0)%Z)) /\
  ledger_balance s'.2 = ledger_balance l /\
  forall id,
    option_Forall2 request_kept
      (Reimbursement.db_reimbursementRequest s'.2 !! id)
      (Reimbursement.db_reimbursementRequest l !! id).
Proof.
  assert (Hsame : forall s : World * Reimbursement.Ledger,
    s = (w, l) ->
    s.1 = w /\
    Reimbursement.db_account s.2 = Reimbursement.db_account l /\
    (exists new,
        Reimbursement.db_transaction s.2 = (Reimbursement.db_transaction l ++ new)%list /\
        (new = [] \/
         exists incoming outgoing,
           new = [incoming; outgoing] /\
           (Reimbursement.tx_amountInCents incoming
            + Reimbursement.tx_amountInCents outgoing = 0)%Z)) /\
    ledger_balance s.2 = ledger_balance l /\
    forall id,
      option_Forall2 request_kept
        (Reimbursement.db_reimbursementRequest s.2 !! id)
        (Reimbursement.db_reimbursementRequest l !! id)).
  { intros s ->. simpl. repeat split.
    - exists []. rewrite app_nil_r. auto.
    - intros id. destruct (_ !! id); constructor. split; reflexivity. }
  assert (Hupd : forall id0 status r,
    Reimbursement.db_reimbursementRequest l !! id0 = Some r ->
    forall id,
      option_Forall2 request_kept
        (<[id0 := Reimbursement.set_status status r]>
           (Reimbursement.db_reimbursementRequest l) !! id)
        (Reimbursement.db_reimbursementRequest l !! id)).
  { intros id0 status r Hr id. destruct (decide (id0 = id)) as [->|Hne].
    - rewrite lookup_insert_eq, Hr. constructor. split; reflexivity.
    - rewrite lookup_insert_ne by exact Hne.
      destruct (_ !! id); constructor. split; reflexivity. }
  assert (Hstatus : forall id0 status r,
    Reimbursement.db_reimbursementRequest l !! id0 = Some r ->
    let s := (w, with_status id0 status r l) in
    s.1 = w /\
    Reimbursement.db_account s.2 = Reimbursement.db_account l /\
    (exists new,
        Reimbursement.db_transaction s.2 = (Reimbursement.db_transaction l ++ new)%list /\
        (new = [] \/
         exists incoming outgoing,
           new = [incoming; outgoing] /\
           (Reimbursement.tx_amountInCents incoming
            + Reimbursement.tx_amountInCents outgoing = 0)%Z)) /\
    ledger_balance s.2 = ledger_balance l /\
    forall id,
      option_Forall2 request_kept
        (Reimbursement.db_reimbursementRequest s.2 !! id)
        (Reimbursement.db_reimbursementRequest l !! id)).
  { intros id0 status r Hr. simpl. repeat split.
    - exists []. rewrite app_nil_r. auto.
    - apply Hupd. exact Hr. }
  cbv zeta. unfold Reimbursement.action. rewrite bind_liftM_requireAdmin.
  destruct (fst (SessionService.requireAdmin request w)) as [u|t];
    [|exact (Hsame (w, l) eq_refl)].
  destruct (Reimbursement.validate request) as [error|data];
    [exact (Hsame (w, l) eq_refl)|].
  unfold Reimbursement.reimbursementRequest_update,
    Reimbursement.include_account, Reimbursement.transaction_create_both.
  destruct (Reimbursement._action data) as [[]|]; run_B.
  - (* PENDING *)
    destruct (_ !! Reimbursement.id data) as [r|] eqn:Hr; simpl;
      [exact (Hstatus _ _ _ Hr)|exact (Hsame (w, l) eq_refl)].
  - (* APPROVED *)
    destruct (Reimbursement.accountId data) as [a|];
      [|exact (Hsame (w, l) eq_refl)].
    destruct (truthy a); [|exact (Hsame (w, l) eq_refl)]. simpl.
    destruct (_ !! Reimbursement.id data) as [r|] eqn:Hr; simpl;
      [|exact (Hsame (w, l) eq_refl)].
    destruct (Reimbursement.db_account l !! Reimbursement.rr_accountId r)
      as [acct|] eqn:Hacct; simpl; [|exact (Hstatus _ _ _ Hr)].
    rewrite Hacct. simpl.
    destruct (Reimbursement.db_account l !! a) as [payer|] eqn:Hpayer; simpl;
      [|exact (Hstatus _ _ _ Hr)].
    repeat split.
    + eexists. split; [reflexivity|]. right. eexists. eexists.
      split; [reflexivity|]. simpl. lia.
    + unfold ledger_balance at 1. simpl. rewrite balance_app. simpl. lia.
    + apply Hupd. exact Hr.
  - (* REJECTED *)
    destruct (_ !! Reimbursement.id data) as [r|] eqn:Hr; simpl;
      [exact (Hstatus _ _ _ Hr)|exact (Hsame (w, l) eq_refl)].
  - (* VOID *)
    destruct (_ !! Reimbursement.id data) as [r|] eqn:Hr; simpl;
      [exact (Hstatus _ _ _ Hr)|exact (Hsame (w, l) eq_refl)].
  - (* REOPEN *)
    destruct (_ !! Reimbursement.id data) as [r|] eqn:Hr; simpl;
      [exact (Hstatus _ _ _ Hr)|exact (Hsame (w, l) eq_refl)].
Qed.

Section Admin.

Variables (request : Request) (w : World) (l : Reimbursement.Ledger)
  (u : User) (data : Reimbursement.FormValues).
Hypothesis Hadmin : fst (SessionService.requireAdmin request w) = Return u.
Hypothesis Hvalid : Reimbursement.validate request = inr data.


(** X27.  An approval without an account (none submitted, or the empty
    string) is answered with the field error on [accountId] before
    anything is written: the request keeps its status. *)
Theorem approval_needs_account :
  Reimbursement._action data = Reimbursement.SetStatus Reimbursement.APPROVED ->
  Reimbursement.accountId data = None \/
  Reimbursement.accountId data = Some "" ->
  Reimbursement.action request (w, l) =
    (Return (Reimbursement.validationError
               [("accountId", "Account is required for approvals.")]),
     (w, l)).
Proof using Hadmin Hvalid.
  intros Hact Hacc. unfold Reimbursement.action.
  rewrite bind_liftM_requireAdmin, Hadmin, Hvalid, Hact.
  destruct Hacc as [-> | ->]; reflexivity.
Qed.

(** X28.  Reopening, rejecting and voiding (every action but the approval)
    of an existing request only replace its status, by [PENDING] for
    [REOPEN] and by the submitted status otherwise: no transaction is
    created, and the other requests are untouched. *)
Theorem status_change_only (r : Reimbursement.ReimbursementRequest) :
  Reimbursement._action data ≠ Reimbursement.SetStatus Reimbursement.APPROVED ->
  Reimbursement.db_reimbursementRequest l !! Reimbursement.id data = Some r ->
  exists title description,
    Reimbursement.action request (w, l) =
      (Return (Reimbursement.toast_json
                 (Reimbursement.set_status
                    (requested_status (Reimbursement._action data)) r)
                 title description),
       (w, with_status (Reimbursement.id data)
             (requested_status (Reimbursement._action data)) r l)).
Proof using Hadmin Hvalid.
  intros Hact Hr. unfold Reimbursement.action.
  rewrite bind_liftM_requireAdmin, Hadmin, Hvalid.
  unfold Reimbursement.reimbursementRequest_update, with_status.
  destruct (Reimbursement._action data) as [[]|]; try congruence;
    run_B; rewrite Hr; simpl; eexists; eexists; reflexivity.
Qed.

(** X29.  For a request id that is not in the table, the action throws the
    not-found error of the update and writes nothing (unless it is an
    approval without account, which is rejected before the update). *)
Theorem unknown_request_not_found :
  Reimbursement.db_reimbursementRequest l !! Reimbursement.id data = None ->
  (Reimbursement._action data = Reimbursement.SetStatus Reimbursement.APPROVED ->
   exists payer, Reimbursement.accountId data = Some payer /\ payer ≠ "") ->
  Reimbursement.action request (w, l) = (Throw NotFoundError, (w, l)).
Proof using Hadmin Hvalid.
  intros Hr Hacc. unfold Reimbursement.action.
  rewrite bind_liftM_requireAdmin, Hadmin, Hvalid.
  unfold Reimbursement.reimbursementRequest_update.
  destruct (Reimbursement._action data) as [[]|];
    try (run_B; rewrite Hr; reflexivity).
  destruct (Hacc eq_refl) as (payer & -> & Hne).
  apply truthy_true_iff in Hne. rewrite Hne.
  run_B. rewrite Hr. reflexivity.
Qed.

(** X30.  The status update of an approval is outside the transaction that
    creates the two rows: when the submitted account does not exist, the
    action throws, no transaction is created, and the request is
    nevertheless left [APPROVED]. *)
Theorem approval_from_missing_account (payer : string)
    (r : Reimbursement.ReimbursementRequest) :
  Reimbursement._action data = Reimbursement.SetStatus Reimbursement.APPROVED ->
  Reimbursement.accountId data = Some payer ->
  payer ≠ "" ->
  Reimbursement.db_reimbursementRequest l !! Reimbursement.id data = Some r ->
  is_Some (Reimbursement.db_account l !! Reimbursement.rr_accountId r) ->
  Reimbursement.db_account l !! payer = None ->
  Reimbursement.action request (w, l) =
    (Throw NotFoundError,
     (w, with_status (Reimbursement.id data) Reimbursement.APPROVED r l)).
Proof using Hadmin Hvalid.
  intros Hact Hpayer Hne Hr [acct Hacct] Hnone.
  unfold Reimbursement.action.
  rewrite bind_liftM_requireAdmin, Hadmin, Hvalid, Hact, Hpayer.
  apply truthy_true_iff in Hne. rewrite Hne.
  unfold Reimbursement.reimbursementRequest_update,
    Reimbursement.include_account, Reimbursement.transaction_create_both.
  run_B. rewrite Hr. simpl. rewrite Hacct. simpl. rewrite Hacct, Hnone.
  reflexivity.
Qed.

End Admin.

End ReimbursementAction.

(* ===================================================================== *)
(** * More concrete runs                                                 *)
(* ===================================================================== *)

Lemma requireUserByRole_forbidden_only_without_user_witness :
  exists userId,
    SessionService.getUserId (requestOf "gone" "/accounts" noForm)
      = Some userId /\
    truthy userId = true /\ db_user demoWorld !! userId = None.
Proof.
  exact (proj2 (requireUserByRole_forbidden_only_without_user
                  (requestOf "gone" "/accounts" noForm) None demoWorld None
                  eq_refl)).
Defined.


Lemma requireUserId_throws_safe_redirect_witness :
  exists q,
    login_redirect "/a b&c=d#e"
      = ThrownResponse (redirect ("/login?redirectTo=" +:+ q) None) /\
    URLSearchParams.safe q = true.
Proof.
  exact (requireUserId_throws_safe_redirect (anonymousRequest "/a b&c=d#e")
           None demoWorld (login_redirect "/a b&c=d#e") eq_refl).
Defined.

Lemma loader_without_memberships_witness :
  ChooseOrgPage.loader (requestOf "U1" "/choose-org" noForm) demoWorld0
  = (Return (ChooseOrgPage.redirectWithError "/login" "Error"
               "You are not a member of any organizations."
               (Some (destroySession_cookie {[ "userId" := "U1" ]}))),
     demoWorld0).
Proof.
  apply (loader_without_memberships (requestOf "U1" "/choose-org" noForm)
           demoWorld0 "U1" eq_refl eq_refl).
  - eexists. reflexivity.
  - intros org. reflexivity.
Defined.

Lemma loader_lists_memberships_witness :
  exists orgs,
    ChooseOrgPage.loader (requestOf "U1" "/choose-org" noForm) demoWorld2
      = (Return (ChooseOrgPage.typedjson_orgs orgs), demoWorld2) /\
    orgs ≠ [] /\ NoDup (ChooseOrgPage.oc_id <$> orgs).
Proof.
  eexists. split; [vm_compute; reflexivity|].
  destruct (loader_lists_memberships (requestOf "U1" "/choose-org" noForm)
              demoWorld2 "U1" eq_refl eq_refl _ demoWorld2 eq_refl)
    as (_ & Hne & Hnd & _).
  split; [exact Hne|exact Hnd].
Defined.

Lemma action_remember_writes_witness :
  db_membership
    (snd (@ChooseOrg.action demoPlatform
            (requestOf "U1" "/choose-org" (selectA None (Some "on")))
            demoWorld))
    !! ("U1", "A")
  = Some (mkMembership "m1" ADMIN true).
Proof.
  exact (proj1 (@action_remember_writes demoPlatform
                  (requestOf "U1" "/choose-org" (selectA None (Some "on")))
                  demoWorld "U1" eq_refl eq_refl
                  (ChooseOrg.mkFormValues "A" None true)
                  (mkMembership "m1" ADMIN false) eq_refl eq_refl eq_refl)).
Defined.


Lemma action_commits_selection_witness :
  exists response session,
    fst (@ChooseOrg.action demoPlatform
           (requestOf "U1" "/choose-org" (selectA (Some "/accounts") None))
           demoWorld) = Return response /\
    committed_session response = Some session /\
    session !! "organizationId" = Some "A" /\
    session !! "userId" = Some "U1".
Proof.
  destruct (@action_commits_selection demoPlatform
              (requestOf "U1" "/choose-org" (selectA (Some "/accounts") None))
              demoWorld "U1" eq_refl eq_refl
              (ChooseOrg.mkFormValues "A" (Some "/accounts") false)
              eq_refl
              (ex_intro _ (mkMembership "m1" ADMIN false) eq_refl)
              (ex_intro _ "https://example.org/accounts" eq_refl))
    as (response & session & Hrun & Hc & Horg & Huser & _).
  exists response, session. repeat split; assumption.
Defined.

Lemma action_unparsable_target_witness :
  fst (@ChooseOrg.action demoPlatform
         (requestOf "U1" "/choose-org" (selectA (Some "http://") (Some "on")))
         demoWorld) = Throw TypeError_InvalidURL /\
  db_membership
    (snd (@ChooseOrg.action demoPlatform
            (requestOf "U1" "/choose-org" (selectA (Some "http://") (Some "on")))
            demoWorld))
    !! ("U1", "A")
  = Some (mkMembership "m1" ADMIN true).
Proof.
  destruct (@action_unparsable_target demoPlatform
              (requestOf "U1" "/choose-org" (selectA (Some "http://") (Some "on")))
              demoWorld "U1" eq_refl eq_refl
              (ChooseOrg.mkFormValues "A" (Some "http://") true)
              (mkMembership "m1" ADMIN false) eq_refl eq_refl eq_refl)
    as (Hthrow & _ & Hremember & _).
  split; [exact Hthrow|exact (Hremember eq_refl)].
Defined.

Lemma listed_org_is_selectable_witness :
  fst (@ChooseOrg.action demoPlatform
         (requestOf "U1" "/choose-org" (selectA None None)) demoWorld2)
  ≠ Throw NotFoundError.
Proof.
  refine (proj2 (@listed_org_is_selectable demoPlatform
                   (requestOf "U1" "/choose-org" noForm) demoWorld2 "U1"
                   eq_refl eq_refl _ demoWorld2
                   (ChooseOrgPage.mkOrgChoice "A" "Alpha" ADMIN false)
                   (requestOf "U1" "/choose-org" (selectA None None))
                   (ChooseOrg.mkFormValues "A" None false)
                   _ _ eq_refl eq_refl eq_refl)).
  - vm_compute. reflexivity.
  - left.
Defined.

Lemma remember_box_follows_selection_witness :
  exists orgs,
    ChooseOrgPage.loader (requestOf "U1" "/choose-org" noForm)
      (snd (@ChooseOrg.action demoPlatform
              (requestOf "U1" "/choose-org" (selectA None (Some "on")))
              demoWorld2))
    = (Return (ChooseOrgPage.typedjson_orgs orgs),
       snd (@ChooseOrg.action demoPlatform
              (requestOf "U1" "/choose-org" (selectA None (Some "on")))
              demoWorld2)) /\
    ChooseOrgPage.rememberSelection_defaultChecked orgs = true.
Proof.
  eexists. split; [vm_compute; reflexivity|].
  refine (@remember_box_follows_selection demoPlatform
            (requestOf "U1" "/choose-org" (selectA None (Some "on")))
            demoWorld2 "U1" eq_refl eq_refl
            (ChooseOrg.mkFormValues "A" None true)
            (requestOf "U1" "/choose-org" noForm) _ _
            eq_refl (ex_intro _ (mkMembership "m1" ADMIN false) eq_refl)
            eq_refl _).
  vm_compute. reflexivity.
Defined.

Lemma reimbursement_action_requires_admin_witness :
  @Reimbursement.action
    (demoCollaborators
       (reimbursementForm "r1" (Some "acc2")
          (Reimbursement.SetStatus Reimbursement.APPROVED)))
    (requestOf "U1" "/reimbursements/r1" noForm) (demoWorld, demoLedger)
  = (Throw (ThrownResponse
       (unauthorized (Some (mkUser "U1" "u1@example.org" USER "Una")))),
     (demoWorld, demoLedger)).
Proof.
  apply reimbursement_action_requires_admin. reflexivity.
Defined.


Lemma approval_needs_account_witness :
  @Reimbursement.action
    (demoCollaborators
       (reimbursementForm "r1" None
          (Reimbursement.SetStatus Reimbursement.APPROVED)))
    (requestOf "S1" "/reimbursements/r1" noForm) (demoWorld, demoLedger)
  = (Return (Reimbursement.validationError
               [("accountId", "Account is required for approvals.")]),
     (demoWorld, demoLedger)).
Proof.
  apply (@approval_needs_account
           (demoCollaborators
              (reimbursementForm "r1" None
                 (Reimbursement.SetStatus Reimbursement.APPROVED)))
           (requestOf "S1" "/reimbursements/r1" noForm)
           demoWorld demoLedger
           (mkUser "S1" "root@example.org" SUPERADMIN "Sam")
           (reimbursementForm "r1" None
              (Reimbursement.SetStatus Reimbursement.APPROVED))
           eq_refl eq_refl eq_refl (or_introl eq_refl)).
Defined.

Lemma status_change_only_witness :
  exists title description,
    @Reimbursement.action
      (demoCollaborators
         (reimbursementForm "r1" None
            (Reimbursement.SetStatus Reimbursement.REJECTED)))
      (requestOf "S1" "/reimbursements/r1" noForm) (demoWorld, demoLedger)
    = (Return (Reimbursement.toast_json
                 (Reimbursement.mkReimbursementRequest Reimbursement.REJECTED
                    "acc1" 2500)
                 title description),
       (demoWorld,
        with_status "r1" Reimbursement.REJECTED
          (Reimbursement.mkReimbursementRequest Reimbursement.PENDING
             "acc1" 2500)
          demoLedger)).
Proof.
  apply (@status_change_only
           (demoCollaborators
              (reimbursementForm "r1" None
                 (Reimbursement.SetStatus Reimbursement.REJECTED)))
           (requestOf "S1" "/reimbursements/r1" noForm)
           demoWorld demoLedger
           (mkUser "S1" "root@example.org" SUPERADMIN "Sam")
           (reimbursementForm "r1" None
              (Reimbursement.SetStatus Reimbursement.REJECTED))
           eq_refl eq_refl
           (Reimbursement.mkReimbursementRequest Reimbursement.PENDING
              "acc1" 2500)
           ltac:(discriminate) eq_refl).
Defined.

Lemma unknown_request_not_found_witness :
  @Reimbursement.action
    (demoCollaborators (reimbursementForm "r9" None Reimbursement.REOPEN))
    (requestOf "S1" "/reimbursements/r9" noForm) (demoWorld, demoLedger)
  = (Throw NotFoundError, (demoWorld, demoLedger)).
Proof.
  apply (@unknown_request_not_found
           (demoCollaborators (reimbursementForm "r9" None Reimbursement.REOPEN))
           (requestOf "S1" "/reimbursements/r9" noForm)
           demoWorld demoLedger
           (mkUser "S1" "root@example.org" SUPERADMIN "Sam")
           (reimbursementForm "r9" None Reimbursement.REOPEN)
           eq_refl eq_refl eq_refl).
  intros Hact. discriminate Hact.
Defined.

Lemma approval_from_missing_account_witness :
  @Reimbursement.action
    (demoCollaborators
       (reimbursementForm "r1" (Some "acc9")
          (Reimbursement.SetStatus Reimbursement.APPROVED)))
    (requestOf "S1" "/reimbursements/r1" noForm) (demoWorld, demoLedger)
  = (Throw NotFoundError,
     (demoWorld,
      with_status "r1" Reimbursement.APPROVED
        (Reimbursement.mkReimbursementRequest Reimbursement.PENDING
           "acc1" 2500)
        demoLedger)).
Proof.
  apply (@approval_from_missing_account
           (demoCollaborators
              (reimbursementForm "r1" (Some "acc9")
                 (Reimbursement.SetStatus Reimbursement.APPROVED)))
           (requestOf "S1" "/reimbursements/r1" noForm)
           demoWorld demoLedger
           (mkUser "S1" "root@example.org" SUPERADMIN "Sam")
           (reimbursementForm "r1" (Some "acc9")
              (Reimbursement.SetStatus Reimbursement.APPROVED))
           eq_refl eq_refl "acc9"
           (Reimbursement.mkReimbursementRequest Reimbursement.PENDING
              "acc1" 2500)
           eq_refl eq_refl ltac:(discriminate) eq_refl
           (ex_intro _ (Reimbursement.mkAccount "1001") eq_refl)
           eq_refl).
Defined.

Lemma requireUserByRole_monotone_witness :
  fst (SessionService.requireUserByRole (requestOf "U1" "/accounts" noForm)
         (Some [USER; ADMIN]) demoWorld)
  = Return (mkUser "U1" "u1@example.org" USER "Una").
Proof.
  apply (requireUserByRole_monotone (requestOf "U1" "/accounts" noForm)
           demoWorld (mkUser "U1" "u1@example.org" USER "Una")
           [USER] [USER; ADMIN]).
  - discriminate.
  - intros x Hx. apply list_elem_of_singleton in Hx. subst x. left.
  - reflexivity.
Defined.

Lemma choose_org_requires_login_witness :
  @ChooseOrg.action demoPlatform (anonymousRequest "/choose-org") demoWorld
    = (Throw (login_redirect "/choose-org"), demoWorld) /\
  ChooseOrgPage.loader (anonymousRequest "/choose-org") demoWorld
    = (Throw (login_redirect "/choose-org"), demoWorld).
Proof.
  exact (@choose_org_requires_login demoPlatform
           (anonymousRequest "/choose-org") demoWorld (or_introl eq_refl)).
Defined.

(* ===================================================================== *)
(** * Where the error taxonomy of the spec and the code part             *)
(* ===================================================================== *)

(** C5: a valid form naming an organization the user is not a member of is
    not answered with a field error on [orgId]; the not-found error of the
    membership lookup is thrown at the caller. *)
Lemma action_non_member_no_field_error :
  let request :=
    requestOf "U1" "/choose-org"
      {| fd_orgId := Some "Z"; fd_redirectTo := None;
         fd_rememberSelection := None |} in
  SessionService.getUserId request = Some "U1" /\
  db_membership demoWorld !! ("U1", "Z") = None /\
  fst (@ChooseOrg.action demoPlatform request demoWorld)
    = Throw NotFoundError /\
  is_InvalidOrgSelection (fst (@ChooseOrg.action demoPlatform request demoWorld))
    = false.
Proof.
  cbv zeta. repeat split; reflexivity.
Qed.

(** C10: a session whose user id is the empty string, which resolves to no
    stored user, is not answered with [forbidden]: the gate throws the
    redirect to the login page. *)
Lemma requireAdmin_empty_user_id_not_forbidden :
  let request := requestOf "" "/reimbursements/7" noForm in
  SessionService.getUserId request = Some "" /\
  db_user demoWorld !! "" = None /\
  SessionService.requireAdmin request demoWorld
    = (Throw (ThrownResponse
         (redirect "/login?redirectTo=%2Freimbursements%2F7" None)),
       demoWorld) /\
  is_forbidden (fst (SessionService.requireAdmin request demoWorld)) = false.
Proof.
  cbv zeta. repeat split; reflexivity.
Qed.
